(** * KK_metar: the METAR decoder of [metar_decoder.py], embedded in Rocq

    The development has two parts.  The first part is the model: the
    Python built-ins the decoder relies on (string methods, [int],
    binary64 arithmetic and formatting, the backtracking matcher of
    [re.match]) and then, function by function, the decoder itself.  The
    second part states and proves the properties of the decoder.

    Modelling conventions.
    - A Python [str] is a [string]; a non-ASCII character is represented
      by the bytes of its UTF-8 encoding, so the literal of the source that
      follows the temperature values is the three bytes the source file
      holds.  Character classes are the ASCII ones: whitespace is
      [\t \n \v \f \r], [\x1c]-[\x1f] and the blank, a digit is [0]-[9].
    - A Python [int] is a [Z].  [int(...)] is the mathematical value of a
      digit string (the interpreter's optional limit on the number of
      digits is not part of the model).
    - A Python [float] is a binary64 number, represented by its exact
      rational value, or an infinity; every operation rounds to nearest,
      ties to even.
    - A raised exception is a value of [result]: [Raise e]. *)

From Stdlib Require Import ZArith QArith Qround Qabs List Bool Ascii String Lia.
From Stdlib Require Import DecimalString.
Import ListNotations.

Local Open Scope string_scope.
Local Open Scope Z_scope.

(* ================================================================== *)
(** ** Exceptions *)

Inductive exn : Type :=
| ZeroDivisionError
| OverflowError
| ValueError
| TypeError.

Inductive result (A : Type) : Type :=
| Ok (a : A)
| Raise (e : exn).

Arguments Ok {A} a.
Arguments Raise {A} e.

Definition bind {A B : Type} (m : result A) (k : A -> result B) : result B :=
  match m with
  | Ok a => k a
  | Raise e => Raise e
  end.

Notation "x <- m ;; k" := (bind m (fun x => k))
  (at level 61, m at next level, right associativity).
Notation "' p <- m ;; k" := (bind m (fun x => let p := x in k))
  (at level 61, p pattern, m at next level, right associativity).

(* ================================================================== *)
(** ** Strings and integers of the host language *)

Module Py.

(** [str.isspace] on one character. *)
Definition is_space (c : ascii) : bool :=
  let n := nat_of_ascii c in
  ((9 <=? n) && (n <=? 13) || (28 <=? n) && (n <=? 32))%nat.

(** [\d] *)
Definition is_digit (c : ascii) : bool :=
  let n := nat_of_ascii c in ((48 <=? n) && (n <=? 57))%nat.

Definition is_empty (s : string) : bool :=
  match s with EmptyString => true | _ => false end.

Fixpoint lstrip (s : string) : string :=
  match s with
  | String c s' => if is_space c then lstrip s' else s
  | EmptyString => EmptyString
  end.

Fixpoint rstrip (s : string) : string :=
  match s with
  | String c s' =>
      let r := rstrip s' in
      if is_empty r && is_space c then EmptyString else String c r
  | EmptyString => EmptyString
  end.

(** [s.strip()] *)
Definition strip (s : string) : string := rstrip (lstrip s).

(** [s.split()]: the maximal runs of non-whitespace characters.  [cur] is
    the run being read, [None] between runs. *)
Fixpoint split_from (cur : option string) (s : string) : list string :=
  match s with
  | EmptyString => match cur with Some w => [w] | None => [] end
  | String c s' =>
      if is_space c then
        match cur with
        | Some w => w :: split_from None s'
        | None => split_from None s'
        end
      else
        match cur with
        | Some w => split_from (Some (w ++ String c EmptyString)) s'
        | None => split_from (Some (String c EmptyString)) s'
        end
  end.

Definition split (s : string) : list string := split_from None s.

(** [sep.join(l)] *)
Fixpoint join (sep : string) (l : list string) : string :=
  match l with
  | [] => EmptyString
  | [x] => x
  | x :: rest => x ++ sep ++ join sep rest
  end.

(** [s.startswith(p)] *)
Fixpoint startswith (p s : string) : bool :=
  match p, s with
  | EmptyString, _ => true
  | String a p', String b s' => Ascii.eqb a b && startswith p' s'
  | String _ _, EmptyString => false
  end.

(** [p in s] for strings *)
Fixpoint contains (p s : string) : bool :=
  startswith p s ||
  match s with
  | String _ s' => contains p s'
  | EmptyString => false
  end.

(** [x in l] for a list of strings *)
Definition mem (x : string) (l : list string) : bool :=
  existsb (String.eqb x) l.

(** [s[n:]] *)
Fixpoint drop (n : nat) (s : string) : string :=
  match n, s with
  | O, _ => s
  | S n', String _ s' => drop n' s'
  | S _, EmptyString => EmptyString
  end.

(** [s[:n]] *)
Fixpoint take (n : nat) (s : string) : string :=
  match n, s with
  | O, _ => EmptyString
  | S n', String c s' => String c (take n' s')
  | S _, EmptyString => EmptyString
  end.

Definition lower_char (c : ascii) : ascii :=
  let n := nat_of_ascii c in
  if ((65 <=? n) && (n <=? 90))%nat then ascii_of_nat (n + 32) else c.

Definition upper_char (c : ascii) : ascii :=
  let n := nat_of_ascii c in
  if ((97 <=? n) && (n <=? 122))%nat then ascii_of_nat (n - 32) else c.

(** [s.lower()] *)
Fixpoint lower (s : string) : string :=
  match s with
  | String c s' => String (lower_char c) (lower s')
  | EmptyString => EmptyString
  end.

(** [s.capitalize()]: first character upper case, the rest lower case. *)
Definition capitalize (s : string) : string :=
  match s with
  | String c s' => String (upper_char c) (lower s')
  | EmptyString => EmptyString
  end.

Definition digit_value (c : ascii) : Z := Z.of_nat (nat_of_ascii c) - 48.

Fixpoint int_digits (acc : Z) (s : string) : result Z :=
  match s with
  | EmptyString => Ok acc
  | String c s' =>
      if is_digit c then int_digits (10 * acc + digit_value c) s'
      else Raise ValueError
  end.

(** [int(s)] for a string of decimal digits, the only strings the decoder
    converts. *)
Definition int (s : string) : result Z :=
  match s with
  | EmptyString => Raise ValueError
  | _ => int_digits 0 s
  end.

(** [str(n)] for an integer. *)
Definition str (n : Z) : string := NilZero.string_of_int (Z.to_int n).

(** Three-digit grouping of a digit string, from the right. *)
Fixpoint group3 (s : string) (n : nat) : string :=
  match s with
  | EmptyString => EmptyString
  | String c s' =>
      let rest := group3 s' (Nat.pred n) in
      match s' with
      | EmptyString => String c rest
      | _ => if (Nat.pred n mod 3 =? 0)%nat then String c ("," ++ rest)
             else String c rest
      end
  end.

(** [f"{n:,}"] *)
Definition str_grouped (n : Z) : string :=
  let d := str (Z.abs n) in
  (if n <? 0 then "-" else "") ++ group3 d (String.length d).

(** [l.append(x)] *)
Definition append {A : Type} (l : list A) (x : A) : list A := (l ++ [x])%list.

(** Zero padding on the left up to [w] characters. *)
Definition zfill (w : nat) (s : string) : string :=
  let fix zeros (k : nat) : string :=
    match k with O => EmptyString | S k' => String "0" (zeros k') end in
  zeros (w - String.length s)%nat ++ s.

End Py.

(* ================================================================== *)
(** ** Binary64 floating point *)

Module F64.

(** A float is a finite binary64 number, given by its exact value, or an
    infinity.  Signed zeros and NaN do not arise in the decoder. *)
Inductive float : Type :=
| Fin (q : Q)
| Inf (negative : bool).

(** The integer nearest to [n / d], ties to even ([0 < d]). *)
Definition round_half_even (n d : Z) : Z :=
  let q := n / d in
  let r := n mod d in
  if 2 * r <? d then q
  else if d <? 2 * r then q + 1
  else if Z.even q then q else q + 1.

(** [m * 2^e] as a rational in lowest terms. *)
Definition scale2 (m e : Z) : Q :=
  Qred (if 0 <=? e then inject_Z (m * 2 ^ e) else m # Z.to_pos (2 ^ (- e))).

(** Rounding of a rational to binary64: 53 bits of precision, exponents
    from [-1074] (subnormal numbers) and overflow to infinity from
    [2^1024]. *)
Definition rnd (q : Q) : float :=
  let n := Qnum q in
  let d := Z.pos (Qden q) in
  if n =? 0 then Fin 0
  else
    let a := Z.abs n in
    let num (e : Z) := if 0 <=? e then a else a * 2 ^ (- e) in
    let den (e : Z) := if 0 <=? e then d * 2 ^ e else d in
    let e0 := Z.log2 a - Z.log2 d - 52 in
    let e1 := if num e0 <? 2 ^ 52 * den e0 then e0 - 1 else e0 in
    let e := Z.max e1 (-1074) in
    let m := round_half_even (num e) (den e) in
    if (0 <=? e) && (2 ^ 1024 <=? m * 2 ^ e) then Inf (n <? 0)
    else Fin (scale2 (Z.sgn n * m) e).

(** A float literal of the source: the binary64 number nearest to the
    decimal written there. *)
Definition literal (q : Q) : Q :=
  match rnd q with Fin x => x | Inf _ => 0 end.

(** [float(n)] for an integer, as the mixed arithmetic of the language
    does it implicitly. *)
Definition of_int (n : Z) : result Q :=
  match rnd (inject_Z n) with
  | Fin x => Ok x
  | Inf _ => Raise OverflowError
  end.

(** [a / b] for two integers: the correctly rounded quotient. *)
Definition int_truediv (a b : Z) : result Q :=
  if b =? 0 then Raise ZeroDivisionError
  else match rnd ((Z.sgn b * a) # Z.to_pos (Z.abs b)) with
       | Fin x => Ok x
       | Inf _ => Raise OverflowError
       end.

Definition mul (x y : Q) : float := rnd (x * y)%Q.
Definition add (x y : Q) : float := rnd (x + y)%Q.
(** [x / y] for floats; [y] is a non-zero literal at each use. *)
Definition div (x y : Q) : float := rnd (x / y)%Q.

(** [round(x)] with one argument: the nearest integer, ties to even. *)
Definition round (x : float) : result Z :=
  match x with
  | Fin q => Ok (round_half_even (Qnum q) (Z.pos (Qden q)))
  | Inf _ => Raise OverflowError
  end.

(** [f"{x:.<prec>f}"] *)
Definition format_fixed (prec : nat) (x : float) : string :=
  match x with
  | Inf neg => if neg then "-inf" else "inf"
  | Fin q =>
      let p := 10 ^ Z.of_nat prec in
      let D := round_half_even (Z.abs (Qnum q) * p) (Z.pos (Qden q)) in
      let body :=
        match prec with
        | O => Py.str D
        | _ => Py.str (D / p) ++ "." ++ Py.zfill prec (Py.str (D mod p))
        end in
      (if Qnum q <? 0 then "-" else "") ++ body
  end.

(** The decimal exponent of a positive rational: the [k] with
    [10^(k-1) <= q < 10^k], searched upwards from an underestimate. *)
Definition pow10 (k : Z) : Q :=
  if 0 <=? k then inject_Z (10 ^ k) else 1 # Z.to_pos (10 ^ (- k)).

Fixpoint decpt_from (fuel : nat) (k : Z) (q : Q) : Z :=
  match fuel with
  | O => k
  | S fuel' => if Qle_bool (pow10 k) q then decpt_from fuel' (k + 1) q else k
  end.

Definition decpt (q : Q) : Z :=
  let l := Z.log2 (Qnum q) - Z.log2 (Z.pos (Qden q)) in
  decpt_from 8 (l * 30103 / 100000 - 2) q.

Fixpoint rstrip_zeros (s : string) : string :=
  match s with
  | String c s' =>
      let r := rstrip_zeros s' in
      if Py.is_empty r && Ascii.eqb c "0" then EmptyString else String c r
  | EmptyString => EmptyString
  end.

Definition same (x : float) (q : Q) : bool :=
  match x with
  | Fin y => Qeq_bool y q
  | Inf _ => false
  end.

(** The shortest digit string that reads back as [q] ([0 < q]), with the
    position of its decimal point: with [p] digits, the candidates are the
    two [p]-digit decimals around [q], the nearer one first. *)
Fixpoint shortest (fuel : nat) (p : Z) (k : Z) (q : Q) : string * Z :=
  let s := (q * pow10 (p - k))%Q in
  let lo := Qfloor s in
  let near := round_half_even (Qnum s) (Z.pos (Qden s)) in
  let far := if near =? lo then lo + 1 else lo in
  let value (D : Z) := (inject_Z D * pow10 (k - p))%Q in
  let answer (D : Z) :=
    let ds := Py.str D in
    (rstrip_zeros ds, k - p + Z.of_nat (String.length ds)) in
  match fuel with
  | O => answer near
  | S fuel' =>
      if same (rnd (value near)) q then answer near
      else if (0 <? far) && same (rnd (value far)) q then answer far
      else shortest fuel' (p + 1) k q
  end.

Fixpoint zeros (n : nat) : string :=
  match n with O => EmptyString | S n' => String "0" (zeros n') end.

(** [repr(x)], which is also [str(x)] and [f"{x}"]. *)
Definition repr (x : float) : string :=
  match x with
  | Inf neg => if neg then "-inf" else "inf"
  | Fin q =>
      if Qnum q =? 0 then "0.0"
      else
        let a := Qabs q in
        let '(ds, pt) := shortest 16 1 (decpt a) a in
        let len := Z.of_nat (String.length ds) in
        let body :=
          if (-4 <? pt) && (pt <=? 16) then
            if pt <=? 0 then "0." ++ zeros (Z.to_nat (- pt)) ++ ds
            else if len <=? pt then ds ++ zeros (Z.to_nat (pt - len)) ++ ".0"
            else Py.take (Z.to_nat pt) ds ++ "." ++ Py.drop (Z.to_nat pt) ds
          else
            let x := pt - 1 in
            Py.take 1 ds
            ++ (if 1 <? len then "." ++ Py.drop 1 ds else "")
            ++ "e" ++ (if x <? 0 then "-" else "+")
            ++ Py.zfill 2 (Py.str (Z.abs x)) in
        (if Qnum q <? 0 then "-" else "") ++ body
  end.

End F64.

(* ================================================================== *)
(** ** Regular expressions: the patterns and [re.match] *)

Module Re.

(** The constructs the decoder's patterns use.  Every pair of parentheses
    of a pattern is a capturing group, numbered by its opening
    parenthesis. *)
Inductive regex : Type :=
| Eps
| Chr (c : ascii)
| Digit                                   (* \d *)
| Space                                   (* \s *)
| OneOf (cs : string)                     (* [...] *)
| Cat (r1 r2 : regex)
| Alt (r1 r2 : regex)                     (* r1|r2 *)
| Rep (r : regex) (lo : nat) (hi : option nat)  (* greedy r{lo,hi} *)
| Grp (i : nat) (r : regex)               (* (r) *)
| Bol                                     (* ^ *)
| Eol.                                    (* $ *)

Fixpoint lit (s : string) : regex :=
  match s with
  | EmptyString => Eps
  | String c s' => Cat (Chr c) (lit s')
  end.

Definition seq (l : list regex) : regex := fold_right Cat Eps l.

Fixpoint alts (l : list regex) : regex :=
  match l with
  | [] => OneOf EmptyString
  | [r] => r
  | r :: l' => Alt r (alts l')
  end.

(** [a|b|c] for literal alternatives *)
Definition words (l : list string) : regex := alts (map lit l).

Definition opt (r : regex) : regex := Rep r 0 (Some 1%nat).        (* r? *)
Definition plus (r : regex) : regex := Rep r 1 None.               (* r+ *)
Definition times (n : nat) (r : regex) : regex := Rep r n (Some n). (* r{n} *)
Definition range (lo hi : nat) (r : regex) : regex := Rep r lo (Some hi).

(** The groups matched so far, the latest binding of a group first. *)
Definition captures : Type := list (nat * string).

Fixpoint char_in (c : ascii) (cs : string) : bool :=
  match cs with
  | EmptyString => false
  | String c' cs' => Ascii.eqb c c' || char_in c cs'
  end.

Definition newline : ascii := ascii_of_nat 10.

(** The backtracking matcher.  [s] is the text still to read, [pos] the
    number of characters read, [k] what remains to be matched after [r].
    Alternatives are tried from the left and repetitions take as many
    iterations as they can before giving one back, as in Python.  An
    unbounded repetition is given as many iterations as there are
    characters left: every repeated pattern of the decoder reads at least
    one character. *)
Fixpoint run (r : regex) (s : string) (pos : nat) (caps : captures)
    (k : string -> nat -> captures -> option captures) {struct r}
    : option captures :=
  match r with
  | Eps => k s pos caps
  | Chr c =>
      match s with
      | String c' s' => if Ascii.eqb c c' then k s' (S pos) caps else None
      | EmptyString => None
      end
  | Digit =>
      match s with
      | String c' s' => if Py.is_digit c' then k s' (S pos) caps else None
      | EmptyString => None
      end
  | Space =>
      match s with
      | String c' s' => if Py.is_space c' then k s' (S pos) caps else None
      | EmptyString => None
      end
  | OneOf cs =>
      match s with
      | String c' s' => if char_in c' cs then k s' (S pos) caps else None
      | EmptyString => None
      end
  | Cat r1 r2 => run r1 s pos caps (fun s1 p1 c1 => run r2 s1 p1 c1 k)
  | Alt r1 r2 =>
      match run r1 s pos caps k with
      | Some c => Some c
      | None => run r2 s pos caps k
      end
  | Rep r' lo hi =>
      (fix loop (n need : nat) (s : string) (pos : nat) (caps : captures)
           {struct n} : option captures :=
         let stop :=
           match need with O => k s pos caps | S _ => None end in
         match n with
         | O => stop
         | S n' =>
             match run r' s pos caps
                     (fun s1 p1 c1 => loop n' (Nat.pred need) s1 p1 c1) with
             | Some c => Some c
             | None => stop
             end
         end)
        (match hi with Some h => h | None => String.length s end)
        lo s pos caps
  | Grp i r' =>
      run r' s pos caps
        (fun s1 p1 c1 => k s1 p1 ((i, Py.take (p1 - pos) s) :: c1))
  | Bol => match pos with O => k s pos caps | S _ => None end
  | Eol =>
      match s with
      | EmptyString => k s pos caps
      | String c EmptyString =>
          if Ascii.eqb c newline then k s pos caps else None
      | _ => None
      end
  end.

(** [re.match(r, s)]: a match that starts at the first character and may
    end anywhere. *)
Definition re_match (r : regex) (s : string) : option captures :=
  run r s 0 [] (fun _ _ c => Some c).

(** [bool(re.match(r, s))] *)
Definition matches (r : regex) (s : string) : bool :=
  match re_match r s with Some _ => true | None => false end.

(** [m.group(i)]: [None] for a group that took no part in the match. *)
Fixpoint group (m : captures) (i : nat) : option string :=
  match m with
  | [] => None
  | (j, s) :: m' => if (i =? j)%nat then Some s else group m' i
  end.

(** [int(m.group(i))] *)
Definition int_group (m : captures) (i : nat) : result Z :=
  match group m i with
  | Some s => Py.int s
  | None => Raise TypeError
  end.

End Re.

(* ================================================================== *)
(** ** The decoder: data *)

Import Re.

(** [class DecodedMetar]: every field defaults to the empty string. *)
Record DecodedMetar : Type := {
  airport : string;
  observation_time : string;
  wind : string;
  visibility : string;
  weather : string;
  clouds : string;
  temperature : string;
  dewpoint : string;
  altimeter : string;
  flight_category : string;
  raw_metar : string;
  summary : string
}.

Definition DecodedMetar_default : DecodedMetar :=
  {| airport := ""; observation_time := ""; wind := ""; visibility := "";
     weather := ""; clouds := ""; temperature := ""; dewpoint := "";
     altimeter := ""; flight_category := ""; raw_metar := ""; summary := "" |}.

(** Attribute assignment [decoded.f = v], one function per field the
    decoder assigns. *)
Definition set_raw_metar (v : string) (d : DecodedMetar) : DecodedMetar :=
  {| airport := airport d; observation_time := observation_time d;
     wind := wind d; visibility := visibility d; weather := weather d;
     clouds := clouds d; temperature := temperature d;
     dewpoint := dewpoint d; altimeter := altimeter d;
     flight_category := flight_category d; raw_metar := v;
     summary := summary d |}.

Definition set_airport (v : string) (d : DecodedMetar) : DecodedMetar :=
  {| airport := v; observation_time := observation_time d;
     wind := wind d; visibility := visibility d; weather := weather d;
     clouds := clouds d; temperature := temperature d;
     dewpoint := dewpoint d; altimeter := altimeter d;
     flight_category := flight_category d; raw_metar := raw_metar d;
     summary := summary d |}.

Definition set_observation_time (v : string) (d : DecodedMetar)
    : DecodedMetar :=
  {| airport := airport d; observation_time := v;
     wind := wind d; visibility := visibility d; weather := weather d;
     clouds := clouds d; temperature := temperature d;
     dewpoint := dewpoint d; altimeter := altimeter d;
     flight_category := flight_category d; raw_metar := raw_metar d;
     summary := summary d |}.

Definition set_wind (v : string) (d : DecodedMetar) : DecodedMetar :=
  {| airport := airport d; observation_time := observation_time d;
     wind := v; visibility := visibility d; weather := weather d;
     clouds := clouds d; temperature := temperature d;
     dewpoint := dewpoint d; altimeter := altimeter d;
     flight_category := flight_category d; raw_metar := raw_metar d;
     summary := summary d |}.

Definition set_visibility (v : string) (d : DecodedMetar) : DecodedMetar :=
  {| airport := airport d; observation_time := observation_time d;
     wind := wind d; visibility := v; weather := weather d;
     clouds := clouds d; temperature := temperature d;
     dewpoint := dewpoint d; altimeter := altimeter d;
     flight_category := flight_category d; raw_metar := raw_metar d;
     summary := summary d |}.

Definition set_weather (v : string) (d : DecodedMetar) : DecodedMetar :=
  {| airport := airport d; observation_time := observation_time d;
     wind := wind d; visibility := visibility d; weather := v;
     clouds := clouds d; temperature := temperature d;
     dewpoint := dewpoint d; altimeter := altimeter d;
     flight_category := flight_category d; raw_metar := raw_metar d;
     summary := summary d |}.

Definition set_clouds (v : string) (d : DecodedMetar) : DecodedMetar :=
  {| airport := airport d; observation_time := observation_time d;
     wind := wind d; visibility := visibility d; weather := weather d;
     clouds := v; temperature := temperature d;
     dewpoint := dewpoint d; altimeter := altimeter d;
     flight_category := flight_category d; raw_metar := raw_metar d;
     summary := summary d |}.

Definition set_temperature (v : string) (d : DecodedMetar) : DecodedMetar :=
  {| airport := airport d; observation_time := observation_time d;
     wind := wind d; visibility := visibility d; weather := weather d;
     clouds := clouds d; temperature := v;
     dewpoint := dewpoint d; altimeter := altimeter d;
     flight_category := flight_category d; raw_metar := raw_metar d;
     summary := summary d |}.

Definition set_dewpoint (v : string) (d : DecodedMetar) : DecodedMetar :=
  {| airport := airport d; observation_time := observation_time d;
     wind := wind d; visibility := visibility d; weather := weather d;
     clouds := clouds d; temperature := temperature d;
     dewpoint := v; altimeter := altimeter d;
     flight_category := flight_category d; raw_metar := raw_metar d;
     summary := summary d |}.

Definition set_altimeter (v : string) (d : DecodedMetar) : DecodedMetar :=
  {| airport := airport d; observation_time := observation_time d;
     wind := wind d; visibility := visibility d; weather := weather d;
     clouds := clouds d; temperature := temperature d;
     dewpoint := dewpoint d; altimeter := v;
     flight_category := flight_category d; raw_metar := raw_metar d;
     summary := summary d |}.

Definition set_summary (v : string) (d : DecodedMetar) : DecodedMetar :=
  {| airport := airport d; observation_time := observation_time d;
     wind := wind d; visibility := visibility d; weather := weather d;
     clouds := clouds d; temperature := temperature d;
     dewpoint := dewpoint d; altimeter := altimeter d;
     flight_category := flight_category d; raw_metar := raw_metar d;
     summary := v |}.

(** A dictionary with string keys, in the order of the source. *)
Fixpoint lookup (k : string) (d : list (string * string)) : option string :=
  match d with
  | [] => None
  | (k', v) :: d' => if String.eqb k k' then Some v else lookup k d'
  end.

Definition WEATHER_CODES : list (string * string) :=
  [ (* Intensity *)
    ("-", "light"); ("+", "heavy"); ("VC", "in the vicinity");
    (* Descriptor *)
    ("MI", "shallow"); ("PR", "partial"); ("BC", "patches of");
    ("DR", "low drifting"); ("BL", "blowing"); ("SH", "showers");
    ("TS", "thunderstorm"); ("FZ", "freezing");
    (* Precipitation *)
    ("DZ", "drizzle"); ("RA", "rain"); ("SN", "snow");
    ("SG", "snow grains"); ("IC", "ice crystals"); ("PL", "ice pellets");
    ("GR", "hail"); ("GS", "small hail"); ("UP", "unknown precipitation");
    (* Obscuration *)
    ("BR", "mist"); ("FG", "fog"); ("FU", "smoke"); ("VA", "volcanic ash");
    ("DU", "widespread dust"); ("SA", "sand"); ("HZ", "haze");
    ("PY", "spray");
    (* Other *)
    ("PO", "dust whirls"); ("SQ", "squalls"); ("FC", "funnel cloud");
    ("SS", "sandstorm"); ("DS", "duststorm") ].

Definition CLOUD_CODES : list (string * string) :=
  [ ("SKC", "clear skies"); ("CLR", "clear skies"); ("FEW", "few clouds");
    ("SCT", "scattered clouds"); ("BKN", "broken clouds");
    ("OVC", "overcast"); ("VV", "vertical visibility") ].

(** The compass sectors [(low, high) : direction], in the order of the
    source. *)
Definition COMPASS_DIRECTIONS : list ((Q * Q) * string) :=
  [ ((0, 22.5), "north");
    ((22.5, 67.5), "northeast");
    ((67.5, 112.5), "east");
    ((112.5, 157.5), "southeast");
    ((157.5, 202.5), "south");
    ((202.5, 247.5), "southwest");
    ((247.5, 292.5), "west");
    ((292.5, 337.5), "northwest");
    ((337.5, 360), "north") ]%Q.

(** The characters the source file holds between a temperature value and
    its unit letter: the bytes EC A7 B8, the UTF-8 encoding of U+C9F8. *)
Definition unit_mark : string := "째".

(** The degree sign, U+00B0: the bytes C2 B0. *)
Definition degree_sign : string := "°".

(* ================================================================== *)
(** ** The decoder: unit conversions *)

(** [degrees_to_direction]: the first sector with
    [low <= degrees < high], ['variable'] when there is none.  The
    comparison of an integer with a float is exact in Python, so the
    argument and the bounds are rationals. *)
Fixpoint first_sector (degrees : Q) (table : list ((Q * Q) * string))
    : option string :=
  match table with
  | [] => None
  | ((low, high), direction) :: table' =>
      if Qle_bool low degrees && negb (Qle_bool high degrees)
      then Some direction
      else first_sector degrees table'
  end.

Definition degrees_to_direction (degrees : Q) : string :=
  match first_sector degrees COMPASS_DIRECTIONS with
  | Some direction => direction
  | None => "variable"
  end.

(** [round(knots * 1.15078)] *)
Definition knots_to_mph (knots : Z) : result Z :=
  x <- F64.of_int knots ;;
  F64.round (F64.mul x (F64.literal 1.15078)).

(** [round((celsius * 9/5) + 32)] *)
Definition celsius_to_fahrenheit (celsius : Z) : result Z :=
  x <- F64.int_truediv (celsius * 9) 5 ;;
  F64.round (F64.add x 32).

(* ================================================================== *)
(** ** The decoder: field parsers *)

(** [r'VRB(\d{2,3})KT'] *)
Definition re_wind_vrb : regex :=
  seq [lit "VRB"; Grp 1 (range 2 3 Digit); lit "KT"].

(** [r'(\d{3})(\d{2,3})(G(\d{2,3}))?KT'] *)
Definition re_wind_std : regex :=
  seq [Grp 1 (times 3 Digit); Grp 2 (range 2 3 Digit);
       opt (Grp 3 (seq [lit "G"; Grp 4 (range 2 3 Digit)])); lit "KT"].

Definition parse_wind (wind_str : string) : result string :=
  if Py.is_empty wind_str then Ok "Wind information not available"
  else
    (* Variable wind: VRB05KT *)
    match re_match re_wind_vrb wind_str with
    | Some vrb_match =>
        speed_kt <- int_group vrb_match 1 ;;
        speed_mph <- knots_to_mph speed_kt ;;
        if speed_kt =? 0 then Ok "Calm winds"
        else Ok ("Variable wind at " ++ Py.str speed_mph ++ " mph")
    | None =>
        (* Standard wind: 18010KT or 18010G20KT *)
        match re_match re_wind_std wind_str with
        | Some m =>
            direction <- int_group m 1 ;;
            speed_kt <- int_group m 2 ;;
            gust_kt <-
              match group m 4 with
              | Some (String _ _ as g) => bind (Py.int g) (fun n => Ok (Some n))
              | _ => Ok None
              end ;;
            if speed_kt =? 0 then Ok "Calm winds"
            else
              let direction_text := degrees_to_direction (inject_Z direction) in
              speed_mph <- knots_to_mph speed_kt ;;
              let result :=
                "Wind from the " ++ direction_text ++ " at "
                ++ Py.str speed_mph ++ " mph" in
              match gust_kt with
              | Some g =>
                  if g =? 0 then Ok result
                  else
                    gust_mph <- knots_to_mph g ;;
                    Ok (result ++ ", gusting to " ++ Py.str gust_mph ++ " mph")
              | None => Ok result
              end
        | None =>
            (* Calm winds: 00000KT *)
            if String.eqb wind_str "00000KT" then Ok "Calm winds"
            else Ok ("Wind: " ++ wind_str)
        end
    end.

(** [r'(\d+)SM'] *)
Definition re_vis_sm : regex := seq [Grp 1 (plus Digit); lit "SM"].

(** [r'((\d+)\s+)?(\d+)/(\d+)SM'] *)
Definition re_vis_frac : regex :=
  seq [opt (Grp 1 (seq [Grp 2 (plus Digit); plus Space]));
       Grp 3 (plus Digit); lit "/"; Grp 4 (plus Digit); lit "SM"].

(** [r'(\d{4})'] *)
Definition re_vis_meters : regex := Grp 1 (times 4 Digit).

Definition parse_visibility (vis_str : string) : result string :=
  if Py.is_empty vis_str then Ok ""
  else
    (* 10SM = 10 statute miles *)
    match re_match re_vis_sm vis_str with
    | Some m =>
        miles <- int_group m 1 ;;
        if 10 <=? miles then Ok "Visibility 10 miles or more (excellent)"
        else if 6 <=? miles then
          Ok ("Visibility " ++ Py.str miles ++ " miles (good)")
        else if 3 <=? miles then
          Ok ("Visibility " ++ Py.str miles ++ " miles (moderate)")
        else Ok ("Visibility " ++ Py.str miles ++ " miles (poor)")
    | None =>
        (* Fractional visibility: 1/2SM, 1 1/2SM *)
        match re_match re_vis_frac vis_str with
        | Some frac_match =>
            whole <-
              match group frac_match 2 with
              | Some (String _ _ as g) => Py.int g
              | _ => Ok 0
              end ;;
            num <- int_group frac_match 3 ;;
            denom <- int_group frac_match 4 ;;
            quotient <- F64.int_truediv num denom ;;
            whole_f <- F64.of_int whole ;;
            let total := F64.add whole_f quotient in
            Ok ("Visibility " ++ F64.repr total ++ " miles (reduced)")
        | None =>
            (* Meters (used outside US) *)
            match re_match re_vis_meters vis_str with
            | Some meter_match =>
                meters <- int_group meter_match 1 ;;
                meters_f <- F64.of_int meters ;;
                let miles := F64.div meters_f (F64.literal 1609.34) in
                Ok ("Visibility " ++ F64.format_fixed 1 miles ++ " miles")
            | None => Ok ("Visibility: " ++ vis_str)
            end
        end
    end.

(** The [while remaining:] loop of [parse_weather]: the text is read two
    characters at a time, and a piece that is a key of [WEATHER_CODES] adds
    its phrase. *)
Fixpoint weather_codes (remaining : string) : list string :=
  match remaining with
  | EmptyString => []
  | String a EmptyString =>
      match lookup (String a EmptyString) WEATHER_CODES with
      | Some phrase => [phrase]
      | None => []
      end
  | String a (String b rest) =>
      match lookup (String a (String b EmptyString)) WEATHER_CODES with
      | Some phrase => phrase :: weather_codes rest
      | None => weather_codes rest
      end
  end.

(** The body of the [for token in weather_tokens:] loop: the phrases of
    one token. *)
Definition weather_parts (token : string) : list string :=
  let '(parts, remaining) :=
    (* Check intensity prefix *)
    if Py.startswith "-" token then (["light"], Py.drop 1 token)
    else if Py.startswith "+" token then (["heavy"], Py.drop 1 token)
    else ([], token) in
  let '(parts, remaining) :=
    (* Check for vicinity *)
    if Py.startswith "VC" remaining
    then (Py.append parts "in the vicinity", Py.drop 2 remaining)
    else (parts, remaining) in
  (* Parse remaining codes (2 characters each) *)
  (parts ++ weather_codes remaining)%list.

Fixpoint weather_descriptions (weather_tokens : list string) : list string :=
  match weather_tokens with
  | [] => []
  | token :: rest =>
      match weather_parts token with
      | [] => weather_descriptions rest
      | parts => Py.join " " parts :: weather_descriptions rest
      end
  end.

Definition parse_weather (weather_tokens : list string) : string :=
  match weather_tokens with
  | [] => ""
  | _ =>
      match weather_descriptions weather_tokens with
      | [] => ""
      | descriptions => "Weather: " ++ Py.join ", " descriptions
      end
  end.

(** [r'(FEW|SCT|BKN|OVC|VV)(\d{3})(CB|TCU)?'] *)
Definition re_cloud_layer : regex :=
  seq [Grp 1 (words ["FEW"; "SCT"; "BKN"; "OVC"; "VV"]);
       Grp 2 (times 3 Digit); opt (Grp 3 (words ["CB"; "TCU"]))].

(** The [for token in cloud_tokens:] loop of [parse_clouds];
    [descriptions] is the list built so far.  A [SKC] or [CLR] token
    returns from the function at once. *)
Fixpoint cloud_loop (cloud_tokens : list string) (descriptions : list string)
    : result string :=
  match cloud_tokens with
  | [] =>
      match descriptions with
      | [] => Ok ""
      | _ => Ok (Py.capitalize (Py.join ", " descriptions))
      end
  | token :: rest =>
      (* SKC or CLR *)
      if Py.mem token ["SKC"; "CLR"] then Ok "Clear skies"
      else
        (* FEW020, SCT050, BKN100, OVC250 *)
        match re_match re_cloud_layer token with
        | Some m =>
            let cover := match group m 1 with Some c => c | None => "" end in
            n <- int_group m 2 ;;
            let altitude := n * 100 in
            let cloud_type := group m 3 in
            let cover_text :=
              match lookup cover CLOUD_CODES with
              | Some t => t
              | None => cover
              end in
            let desc :=
              cover_text ++ " at " ++ Py.str_grouped altitude ++ " feet" in
            let desc :=
              match cloud_type with
              | Some ct =>
                  if String.eqb ct "CB"
                  then desc ++ " (cumulonimbus - thunderstorm clouds)"
                  else if String.eqb ct "TCU"
                  then desc ++ " (towering cumulus)"
                  else desc
              | None => desc
              end in
            cloud_loop rest (Py.append descriptions desc)
        | None => cloud_loop rest descriptions
        end
  end.

Definition parse_clouds (cloud_tokens : list string) : result string :=
  match cloud_tokens with
  | [] => Ok "Sky conditions not reported"
  | _ => cloud_loop cloud_tokens []
  end.

(** [r'(M)?(\d{2})/(M)?(\d{2})'] *)
Definition re_temp : regex :=
  seq [opt (Grp 1 (lit "M")); Grp 2 (times 2 Digit); lit "/";
       opt (Grp 3 (lit "M")); Grp 4 (times 2 Digit)].

Definition is_M (g : option string) : bool :=
  match g with Some s => String.eqb s "M" | None => false end.

Definition parse_temp_dewpoint (temp_str : string)
    : result (string * string) :=
  if Py.is_empty temp_str then Ok ("", "")
  else
    (* Format: 15/10 or M02/M05 (M = minus) *)
    match re_match re_temp temp_str with
    | Some m =>
        let temp_neg := is_M (group m 1) in
        temp_c <- int_group m 2 ;;
        let temp_c := if temp_neg then - temp_c else temp_c in
        let dew_neg := is_M (group m 3) in
        dew_c <- int_group m 4 ;;
        let dew_c := if dew_neg then - dew_c else dew_c in
        temp_f <- celsius_to_fahrenheit temp_c ;;
        dew_f <- celsius_to_fahrenheit dew_c ;;
        Ok (Py.str temp_f ++ unit_mark ++ "F (" ++ Py.str temp_c
              ++ unit_mark ++ "C)",
            Py.str dew_f ++ unit_mark ++ "F (" ++ Py.str dew_c
              ++ unit_mark ++ "C)")
    | None => Ok ("", "")
    end.

(** [r'A(\d{4})'] and [r'Q(\d{4})'] *)
Definition re_alt_A : regex := seq [lit "A"; Grp 1 (times 4 Digit)].
Definition re_alt_Q : regex := seq [lit "Q"; Grp 1 (times 4 Digit)].

Definition parse_altimeter (alt_str : string) : result string :=
  if Py.is_empty alt_str then Ok ""
  else
    (* A3012 = 30.12 inches of mercury *)
    match re_match re_alt_A alt_str with
    | Some m =>
        value <- int_group m 1 ;;
        inches <- F64.int_truediv value 100 ;;
        Ok (F64.format_fixed 2 (F64.Fin inches) ++ " inches of mercury")
    | None =>
        (* Q1013 = 1013 hectopascals (used outside US) *)
        match re_match re_alt_Q alt_str with
        | Some q_match =>
            hpa <- int_group q_match 1 ;;
            Ok (Py.str hpa ++ " hectopascals")
        | None => Ok alt_str
        end
    end.

(** [determine_flight_category]; the decoder never calls it. *)
Definition determine_flight_category (visibility_sm : Q) (ceiling_ft : Z)
    : string :=
  if (ceiling_ft <? 500) || negb (Qle_bool 1 visibility_sm) then
    "LIFR (Low Instrument Flight Rules) - Very poor conditions"
  else if (ceiling_ft <? 1000) || negb (Qle_bool 3 visibility_sm) then
    "IFR (Instrument Flight Rules) - Poor conditions"
  else if (ceiling_ft <=? 3000) || Qle_bool visibility_sm 5 then
    "MVFR (Marginal Visual Flight Rules) - Moderate conditions"
  else "VFR (Visual Flight Rules) - Good conditions".

(* ================================================================== *)
(** ** The decoder: summary *)

Definition generate_summary (decoded : DecodedMetar) : string :=
  let sky := Py.lower (clouds decoded) in
  (* Start with sky condition *)
  let parts :=
    if Py.contains "clear" sky then ["It's a clear day"]
    else if Py.contains "overcast" sky then ["The sky is overcast"]
    else if Py.contains "broken" sky then ["The sky is mostly cloudy"]
    else if Py.contains "scattered" sky
    then ["There are some clouds in the sky"]
    else if Py.contains "few" sky then ["There are a few clouds"]
    else ["Current conditions"] in
  (* Add temperature *)
  let parts :=
    if negb (Py.is_empty (temperature decoded))
    then Py.append parts ("with a temperature of " ++ temperature decoded)
    else parts in
  (* Add wind *)
  let parts :=
    if Py.contains "calm" (Py.lower (wind decoded))
    then Py.append parts "and calm winds"
    else if negb (Py.is_empty (wind decoded))
    then Py.append parts ("and " ++ Py.lower (wind decoded))
    else parts in
  (* Add weather phenomena *)
  let parts :=
    if negb (Py.is_empty (weather decoded))
    then Py.append parts (". " ++ weather decoded)
    else parts in
  (* Add visibility if notable *)
  let parts :=
    if negb (Py.is_empty (visibility decoded))
       && (Py.contains "poor" (Py.lower (visibility decoded))
           || Py.contains "reduced" (Py.lower (visibility decoded))
           || Py.contains "moderate" (Py.lower (visibility decoded)))
    then Py.append parts (". " ++ visibility decoded)
    else parts in
  Py.join " " parts ++ ".".

(* ================================================================== *)
(** ** The decoder: [decode_metar]

    The cursor [idx] of the source is represented by the tokens from
    [idx] on, [tokens[idx:]]: [idx < len(tokens)] is a non-empty list,
    [tokens[idx]] its head and [idx += 1] its tail. *)

Definition cursor : Type := (DecodedMetar * list string)%type.

(** First token might be METAR or SPECI prefix *)
Definition skip_report_type (tokens : list string) : list string :=
  match tokens with
  | t :: rest => if Py.mem t ["METAR"; "SPECI"] then rest else tokens
  | [] => []
  end.

(** Airport code (ICAO) *)
Definition read_airport (c : cursor) : cursor :=
  let '(decoded, tokens) := c in
  match tokens with
  | t :: rest => (set_airport t decoded, rest)
  | [] => c
  end.

(** [r'\d{6}Z'] and [r'(\d{2})(\d{2})(\d{2})Z'] *)
Definition re_time_guard : regex := seq [times 6 Digit; lit "Z"].
Definition re_time : regex :=
  seq [Grp 1 (times 2 Digit); Grp 2 (times 2 Digit); Grp 3 (times 2 Digit);
       lit "Z"].

(** [f"{m.group(i)}"] *)
Definition group_text (m : captures) (i : nat) : string :=
  match group m i with Some s => s | None => "None" end.

(** Observation time (DDHHMMz) *)
Definition read_time (c : cursor) : cursor :=
  let '(decoded, tokens) := c in
  match tokens with
  | t :: rest =>
      if matches re_time_guard t then
        match re_match re_time t with
        | Some time_match =>
            let day := group_text time_match 1 in
            let hour := group_text time_match 2 in
            let minute := group_text time_match 3 in
            (set_observation_time
               ("Day " ++ day ++ " at " ++ hour ++ ":" ++ minute ++ " UTC")
               decoded, rest)
        | None => (decoded, rest)
        end
      else c
  | [] => c
  end.

(** AUTO indicator *)
Definition skip_auto (c : cursor) : cursor :=
  let '(decoded, tokens) := c in
  match tokens with
  | t :: rest => if String.eqb t "AUTO" then (decoded, rest) else c
  | [] => c
  end.

(** [r'(VRB|\d{3})\d{2,3}(G\d{2,3})?KT'] and [r'\d{3}V\d{3}'] *)
Definition re_wind_guard : regex :=
  seq [Grp 1 (Alt (lit "VRB") (times 3 Digit)); range 2 3 Digit;
       opt (Grp 2 (seq [lit "G"; range 2 3 Digit])); lit "KT"].
Definition re_wind_range : regex :=
  seq [times 3 Digit; lit "V"; times 3 Digit].

(** Wind, and the variable wind direction (e.g., 180V240) after it *)
Definition read_wind (c : cursor) : result cursor :=
  let '(decoded, tokens) := c in
  match tokens with
  | t :: rest =>
      if matches re_wind_guard t then
        w <- parse_wind t ;;
        let decoded := set_wind w decoded in
        match rest with
        | v :: rest' =>
            if matches re_wind_range v then Ok (decoded, rest')
            else Ok (decoded, rest)
        | [] => Ok (decoded, rest)
        end
      else Ok c
  | [] => Ok c
  end.

(** [r'\d+SM'], [r'\d+/\d+SM'] and [r'\d{4}'] *)
Definition re_vis_sm_guard : regex := seq [plus Digit; lit "SM"].
Definition re_vis_frac_guard : regex :=
  seq [plus Digit; lit "/"; plus Digit; lit "SM"].
Definition re_vis_meters_guard : regex := times 4 Digit.

(** The condition of the visibility loop on [tokens[idx]]. *)
Definition is_visibility_token (t : string) : bool :=
  matches re_vis_sm_guard t
  || matches re_vis_frac_guard t
  || (matches re_vis_meters_guard t && (String.length t =? 4)%nat).

(** The visibility loop: the tokens it appends to [visibility_tokens] and
    the tokens it leaves. *)
Fixpoint visibility_run (tokens : list string) : list string * list string :=
  match tokens with
  | t :: rest =>
      if is_visibility_token t then
        let '(vis, rest') := visibility_run rest in (t :: vis, rest')
      else ([], tokens)
  | [] => ([], [])
  end.

(** Visibility *)
Definition read_visibility (c : cursor) : result cursor :=
  let '(decoded, tokens) := c in
  let '(visibility_tokens, rest) := visibility_run tokens in
  match visibility_tokens with
  | [] => Ok (decoded, rest)
  | _ =>
      v <- parse_visibility (Py.join " " visibility_tokens) ;;
      Ok (set_visibility v decoded, rest)
  end.

(** The patterns of the classification loop. *)
Definition re_weather : regex :=
  seq [Bol; opt (OneOf "-+"); opt (Grp 1 (lit "VC"));
       opt (Grp 2 (words ["MI"; "PR"; "BC"; "DR"; "BL"; "SH"; "TS"; "FZ"]));
       plus (Grp 3 (words ["DZ"; "RA"; "SN"; "SG"; "IC"; "PL"; "GR"; "GS";
                           "UP"; "BR"; "FG"; "FU"; "VA"; "DU"; "SA"; "HZ";
                           "PY"; "PO"; "SQ"; "FC"; "SS"; "DS"]));
       Eol].

Definition re_cloud : regex :=
  seq [Bol;
       Grp 1 (words ["SKC"; "CLR"; "FEW"; "SCT"; "BKN"; "OVC"; "VV"]);
       range 0 3 Digit; opt (Grp 2 (words ["CB"; "TCU"])); Eol].

Definition re_temp_guard : regex :=
  seq [Bol; opt (lit "M"); times 2 Digit; lit "/"; opt (lit "M");
       times 2 Digit; Eol].

Definition re_alt_A_guard : regex := seq [Bol; lit "A"; times 4 Digit; Eol].
Definition re_alt_Q_guard : regex := seq [Bol; lit "Q"; times 4 Digit; Eol].

(** The variables of the classification loop. *)
Record loop_state : Type := {
  decoded_of : DecodedMetar;
  weather_tokens : list string;
  cloud_tokens : list string
}.

(** Weather phenomena and clouds: the loop [while idx < len(tokens)]. *)
Fixpoint classify (tokens : list string) (st : loop_state)
    : result loop_state :=
  match tokens with
  | [] => Ok st
  | token :: rest =>
      (* Check if it's a weather phenomenon *)
      if matches re_weather token then
        classify rest
          {| decoded_of := decoded_of st;
             weather_tokens := Py.append (weather_tokens st) token;
             cloud_tokens := cloud_tokens st |}
      (* Check if it's a cloud layer *)
      else if matches re_cloud token then
        classify rest
          {| decoded_of := decoded_of st;
             weather_tokens := weather_tokens st;
             cloud_tokens := Py.append (cloud_tokens st) token |}
      (* Check for temp/dewpoint *)
      else if matches re_temp_guard token then
        td <- parse_temp_dewpoint token ;;
        classify rest
          {| decoded_of :=
               set_dewpoint (snd td) (set_temperature (fst td) (decoded_of st));
             weather_tokens := weather_tokens st;
             cloud_tokens := cloud_tokens st |}
      (* Check for altimeter *)
      else if matches re_alt_A_guard token || matches re_alt_Q_guard token then
        a <- parse_altimeter token ;;
        classify rest
          {| decoded_of := set_altimeter a (decoded_of st);
             weather_tokens := weather_tokens st;
             cloud_tokens := cloud_tokens st |}
      (* RMK section - stop parsing main elements *)
      else if String.eqb token "RMK" then Ok st
      else classify rest st
  end.

(** The end of [decode_metar], after the classification loop. *)
Definition finish (st : loop_state) : result DecodedMetar :=
  let decoded := set_weather (parse_weather (weather_tokens st)) (decoded_of st) in
  c <- parse_clouds (cloud_tokens st) ;;
  let decoded := set_clouds c decoded in
  (* Generate friendly summary *)
  Ok (set_summary (generate_summary decoded) decoded).

(** [decode_metar] from the point where [tokens] is known not to be empty. *)
Definition decode_tokens (decoded : DecodedMetar) (tokens : list string)
    : result DecodedMetar :=
  let c := (decoded, skip_report_type tokens) in
  let c := read_airport c in
  let c := read_time c in
  let c := skip_auto c in
  c <- read_wind c ;;
  c <- read_visibility c ;;
  st <- classify (snd c)
          {| decoded_of := fst c; weather_tokens := []; cloud_tokens := [] |} ;;
  finish st.

Definition decode_metar (raw_metar : string) : result DecodedMetar :=
  let decoded := set_raw_metar (Py.strip raw_metar) DecodedMetar_default in
  (* Clean and tokenize the METAR *)
  let tokens := Py.split (Py.strip raw_metar) in
  match tokens with
  | [] => Ok decoded
  | _ => decode_tokens decoded tokens
  end.

(* ================================================================== *)
(** ** Vocabulary of the properties *)

(** The tokens [decode_metar] reads from a report. *)
Definition tokens_of (raw_metar : string) : list string :=
  Py.split (Py.strip raw_metar).

(** The conditions under which the decoder hands a token to a field. *)
Definition is_time_token (t : string) : bool := matches re_time_guard t.
Definition is_wind_token (t : string) : bool := matches re_wind_guard t.
Definition is_weather_token (t : string) : bool := matches re_weather t.
Definition is_cloud_token (t : string) : bool := matches re_cloud t.
Definition is_temp_token (t : string) : bool := matches re_temp_guard t.
Definition is_altimeter_token (t : string) : bool :=
  matches re_alt_A_guard t || matches re_alt_Q_guard t.

(** No token of the list satisfies the condition. *)
Definition no_token (guard : string -> bool) (tokens : list string) : Prop :=
  Forall (fun t => guard t = false) tokens.

(** The eight compass points. *)
Definition compass_points : list string :=
  ["north"; "northeast"; "east"; "southeast"; "south"; "southwest"; "west";
   "northwest"].

(** [m] is the integer nearest to [knots * 1.15078], the decimal taken
    exactly: [|m - knots * 1.15078| < 1/2]. *)
Definition nearest_mph (knots m : Z) : Prop :=
  2 * Z.abs (100000 * m - 115078 * knots) < 100000.

(** The descriptor codes of a weather group, the second parenthesis of the
    classifier's pattern. *)
Inductive descriptor : Type := MI | PR | BC | DR | BL | SH | TS | FZ.

Definition descriptor_code (d : descriptor) : string :=
  match d with
  | MI => "MI" | PR => "PR" | BC => "BC" | DR => "DR"
  | BL => "BL" | SH => "SH" | TS => "TS" | FZ => "FZ"
  end.

Inductive intensity : Type := Moderate | Light | Heavy.

Definition intensity_code (i : intensity) : string :=
  match i with Moderate => "" | Light => "-" | Heavy => "+" end.

(** A token made of an optional intensity sign, an optional [VC] and
    descriptor codes only. *)
Definition descriptor_token (i : intensity) (vicinity : bool)
    (ds : list descriptor) : string :=
  intensity_code i ++ (if vicinity then "VC" else "")
  ++ fold_right String.append "" (map descriptor_code ds).

(** The station identifier has been read from [tokens]: there is a token
    left after the optional report type. *)
Definition has_station (tokens : list string) : Prop :=
  skip_report_type tokens <> [].

(** A string of decimal digits. *)
Fixpoint all_digits (s : string) : bool :=
  match s with
  | EmptyString => true
  | String c s' => Py.is_digit c && all_digits s'
  end.

(** A speed or gust field of a wind token: two or three digits. *)
Definition knots_field (s : string) : Prop :=
  all_digits s = true /\ (String.length s = 2 \/ String.length s = 3)%nat.

(** A fixed-direction wind token: the direction field, the speed field,
    the gust field after [G] when there is one, and [KT]. *)
Definition fixed_wind_token (direction speed : string) (gust : option string)
    : string :=
  direction ++ speed
  ++ match gust with Some g => "G" ++ g | None => "" end
  ++ "KT".

(** The integers from [0] up to [n - 1]. *)
Definition upto (n : nat) : list Z := map Z.of_nat (List.seq 0 n).

(** [knots_to_mph] returns the nearest integer. *)
Definition knots_checked (knots : Z) : bool :=
  match knots_to_mph knots with
  | Ok m => (2 * Z.abs (100000 * m - 115078 * knots) <? 100000) && (0 <=? m)
  | Raise _ => false
  end.

(** The report of the test suite's clear and calm day, and its decoding. *)
Definition clear_calm : string :=
  "METAR KJFK 251200Z 00000KT 10SM CLR 20/10 A3000".

Definition clear_calm_decoded : DecodedMetar :=
  {| airport := "KJFK";
     observation_time := "Day 25 at 12:00 UTC";
     wind := "Calm winds";
     visibility := "Visibility 10 miles or more (excellent)";
     weather := "";
     clouds := "Clear skies";
     temperature := "68" ++ unit_mark ++ "F (20" ++ unit_mark ++ "C)";
     dewpoint := "50" ++ unit_mark ++ "F (10" ++ unit_mark ++ "C)";
     altimeter := "30.00 inches of mercury";
     flight_category := "";
     raw_metar := clear_calm;
     summary :=
       "It's a clear day with a temperature of 68" ++ unit_mark ++ "F (20"
       ++ unit_mark ++ "C) and calm winds." |}.

(** What a part of the decoder that reads [tokens] may have changed
    between [d] and [d']: a field whose condition no token satisfies keeps
    its value, and the station, the flight category and the raw text
    always do. *)
Definition frame (tokens : list string) (d d' : DecodedMetar) : Prop :=
  (no_token is_time_token tokens ->
     observation_time d' = observation_time d) /\
  (no_token is_wind_token tokens -> wind d' = wind d) /\
  (no_token is_visibility_token tokens -> visibility d' = visibility d) /\
  (no_token is_temp_token tokens ->
     temperature d' = temperature d /\ dewpoint d' = dewpoint d) /\
  (no_token is_altimeter_token tokens -> altimeter d' = altimeter d) /\
  airport d' = airport d /\
  flight_category d' = flight_category d /\
  raw_metar d' = raw_metar d.

(** The record after the station identifier has been read from [tokens]. *)
Definition with_station (tokens : list string) (d : DecodedMetar)
    : DecodedMetar :=
  fst (read_airport (d, skip_report_type tokens)).

(** A cursor in front of a remarks marker and the tokens [post] after it. *)
Definition extend (post : list string) (c : cursor) : cursor :=
  (fst c, (snd c ++ "RMK" :: post)%list).

(** The result of a computation, transformed when it is a value. *)
Definition result_map {A B : Type} (f : A -> B) (x : result A) : result B :=
  match x with
  | Ok a => Ok (f a)
  | Raise e => Raise e
  end.

(** A cursor and a loop state whose record holds the raw text [r]. *)
Definition retext (r : string) (c : cursor) : cursor :=
  (set_raw_metar r (fst c), snd c).

Definition retext_state (r : string) (st : loop_state) : loop_state :=
  {| decoded_of := set_raw_metar r (decoded_of st);
     weather_tokens := weather_tokens st;
     cloud_tokens := cloud_tokens st |}.

(** The bounds [low <= degrees < high] of a sector of the compass table. *)
Definition in_sector (degrees : Q) (sector : (Q * Q) * string) : Prop :=
  (fst (fst sector) <= degrees /\ degrees < snd (fst sector))%Q.

(** [f] is the integer nearest to [celsius * 9 / 5 + 32], the fraction
    taken exactly: [|f - (9 * celsius / 5 + 32)| < 1/2]. *)
Definition nearest_fahrenheit (celsius f : Z) : Prop :=
  2 * Z.abs (5 * f - (9 * celsius + 160)) < 5.

(** [celsius_to_fahrenheit] returns the nearest integer. *)
Definition celsius_checked (celsius : Z) : bool :=
  match celsius_to_fahrenheit celsius with
  | Ok f => 2 * Z.abs (5 * f - (9 * celsius + 160)) <? 5
  | Raise _ => false
  end.

(** The flight categories, from the worst to the best. *)
Definition category_rank (category : string) : Z :=
  if Py.startswith "LIFR" category then 0
  else if Py.startswith "IFR" category then 1
  else if Py.startswith "MVFR" category then 2
  else if Py.startswith "VFR" category then 3
  else -1.

(** The categories of a visibility and of a ceiling taken alone. *)
Definition visibility_rank (visibility_sm : Q) : Z :=
  if negb (Qle_bool 1 visibility_sm) then 0
  else if negb (Qle_bool 3 visibility_sm) then 1
  else if Qle_bool visibility_sm 5 then 2
  else 3.

Definition ceiling_rank (ceiling_ft : Z) : Z :=
  if ceiling_ft <? 500 then 0
  else if ceiling_ft <? 1000 then 1
  else if ceiling_ft <=? 3000 then 2
  else 3.

(** A variable-direction wind token: [VRB], the speed field, the gust
    field after [G] when there is one, and [KT]. *)
Definition variable_wind_token (speed : string) (gust : option string)
    : string :=
  "VRB" ++ speed
  ++ match gust with Some g => "G" ++ g | None => "" end
  ++ "KT".

(** Hundredths written as a decimal with two digits after the point. *)
Definition hundredths_text (value : Z) : string :=
  Py.str (value / 100) ++ "." ++ Py.zfill 2 (Py.str (value mod 100)).

(** The quotient [value / 100] in binary64, printed with two decimals, is
    [value] hundredths. *)
Definition inches_checked (value : Z) : bool :=
  match F64.int_truediv value 100 with
  | Ok inches =>
      String.eqb (F64.format_fixed 2 (F64.Fin inches)) (hundredths_text value)
  | Raise _ => false
  end.

(** A temperature token: the two fields of two digits, each after [M]
    when it is negative, with [/] between them. *)
Definition temp_token (temp_neg : bool) (temp : string) (dew_neg : bool)
    (dew : string) : string :=
  (if temp_neg then "M" else "") ++ temp ++ "/"
  ++ (if dew_neg then "M" else "") ++ dew.

(** The text of a temperature: Fahrenheit, then Celsius in brackets, each
    followed by the unit mark. *)
Definition temperature_text (f c : Z) : string :=
  Py.str f ++ unit_mark ++ "F (" ++ Py.str c ++ unit_mark ++ "C)".

(* ================================================================== *)
(** * Properties of the decoder *)

(** ** Trimming and tokenizing *)

Section StripFacts.

Lemma lstrip_head (s : string) :
  match Py.lstrip s with
  | String c _ => Py.is_space c = false
  | EmptyString => True
  end.
Proof.
  induction s as [|c s IH]; simpl; [exact I|].
  destruct (Py.is_space c) eqn:E; [exact IH | exact E].
Qed.

Lemma lstrip_fixed (c : ascii) (s : string) :
  Py.is_space c = false -> Py.lstrip (String c s) = String c s.
Proof. intros E; simpl; now rewrite E. Qed.

Lemma rstrip_idempotent (s : string) : Py.rstrip (Py.rstrip s) = Py.rstrip s.
Proof.
  induction s as [|c s IH]; simpl; [reflexivity|].
  destruct (Py.is_empty (Py.rstrip s) && Py.is_space c) eqn:E; simpl.
  - reflexivity.
  - rewrite IH, E. reflexivity.
Qed.

Lemma rstrip_head (c : ascii) (s : string) :
  Py.is_space c = false -> Py.rstrip (String c s) = String c (Py.rstrip s).
Proof. intros E; simpl; rewrite E, andb_false_r; reflexivity. Qed.

Lemma strip_head (s : string) :
  match Py.strip s with
  | String c _ => Py.is_space c = false
  | EmptyString => True
  end.
Proof.
  unfold Py.strip. pose proof (lstrip_head s) as H.
  destruct (Py.lstrip s) as [|c r]; [exact I|].
  rewrite (rstrip_head c r H). exact H.
Qed.

Lemma lstrip_strip (s : string) : Py.lstrip (Py.strip s) = Py.strip s.
Proof.
  pose proof (strip_head s) as H.
  destruct (Py.strip s) as [|c r]; [reflexivity|].
  now apply lstrip_fixed.
Qed.

Lemma strip_idempotent (s : string) : Py.strip (Py.strip s) = Py.strip s.
Proof.
  unfold Py.strip at 1. rewrite lstrip_strip.
  unfold Py.strip. apply rstrip_idempotent.
Qed.

Lemma split_from_some (w s : string) : Py.split_from (Some w) s <> [].
Proof.
  revert w; induction s as [|c s IH]; intros w; simpl; [discriminate|].
  destruct (Py.is_space c); [discriminate | apply IH].
Qed.

Lemma split_nil_lstrip (s : string) : Py.split s = [] -> Py.lstrip s = "".
Proof.
  unfold Py.split. induction s as [|c s IH]; simpl; [reflexivity|].
  destruct (Py.is_space c); [exact IH|].
  intros H. now apply split_from_some in H.
Qed.

Lemma tokens_nil_strip (s : string) : tokens_of s = [] -> Py.strip s = "".
Proof.
  unfold tokens_of. intros H. apply split_nil_lstrip in H.
  now rewrite lstrip_strip in H.
Qed.

End StripFacts.

(* ================================================================== *)
(** ** What each part of the decoder may change *)

Section Frames.

Lemma no_token_incl (g : string -> bool) (l l' : list string) :
  incl l' l -> no_token g l -> no_token g l'.
Proof.
  unfold no_token. intros Hi H. rewrite Forall_forall in *.
  intros t Ht. apply H, Hi, Ht.
Qed.

Lemma no_token_head (g : string -> bool) (t : string) (l : list string) :
  no_token g (t :: l) -> g t = false.
Proof. intros H. now inversion H. Qed.

Lemma frame_refl (ts : list string) (d : DecodedMetar) : frame ts d d.
Proof. unfold frame. tauto. Qed.

Ltac split8 :=
  split; [|split; [|split; [|split; [|split; [|split; [|split]]]]]].

Lemma frame_trans (ts ts' : list string) (d0 d1 d2 : DecodedMetar) :
  incl ts' ts -> frame ts d0 d1 -> frame ts' d1 d2 -> frame ts d0 d2.
Proof.
  intros Hi (A1 & A2 & A3 & A4 & A5 & A6 & A7 & A8)
    (B1 & B2 & B3 & B4 & B5 & B6 & B7 & B8).
  unfold frame. split8.
  1-5: intros H; pose proof (no_token_incl _ _ _ Hi H) as H'.
  - rewrite B1, A1; auto.
  - rewrite B2, A2; auto.
  - rewrite B3, A3; auto.
  - destruct (B4 H') as [-> ->]. now apply A4.
  - rewrite B5, A5; auto.
  - congruence.
  - congruence.
  - congruence.
Qed.

Lemma frame_weaken (ts ts' : list string) (d d' : DecodedMetar) :
  incl ts' ts -> frame ts' d d' -> frame ts d d'.
Proof.
  intros Hi F. eapply frame_trans; [exact Hi | apply frame_refl | exact F].
Qed.

(** A field assigned from the token [t] that satisfies its condition. *)
Ltac frame_by G :=
  unfold frame; cbn; split8; try reflexivity;
  try (intros _; split; reflexivity);
  intros Hno; apply no_token_head in Hno;
  unfold is_time_token, is_wind_token, is_temp_token, is_altimeter_token
    in Hno;
  congruence.

Lemma read_time_frame (d : DecodedMetar) (ts : list string) :
  frame ts d (fst (read_time (d, ts)))
  /\ incl (snd (read_time (d, ts))) ts.
Proof.
  destruct ts as [|t ts]; cbn [read_time].
  - split; [apply frame_refl | apply incl_refl].
  - destruct (matches re_time_guard t) eqn:G.
    + destruct (re_match re_time t); cbn [fst snd];
        (split; [| apply incl_tl, incl_refl]).
      * frame_by G.
      * apply frame_refl.
    + split; [apply frame_refl | apply incl_refl].
Qed.

Lemma skip_auto_frame (d : DecodedMetar) (ts : list string) :
  fst (skip_auto (d, ts)) = d /\ incl (snd (skip_auto (d, ts))) ts.
Proof.
  destruct ts as [|t ts]; cbn [skip_auto];
    [split; [reflexivity | apply incl_refl]|].
  destruct (String.eqb t "AUTO"); cbn [fst snd];
    (split; [reflexivity|]); [apply incl_tl|]; apply incl_refl.
Qed.

Lemma read_wind_frame (d d' : DecodedMetar) (ts ts' : list string) :
  read_wind (d, ts) = Ok (d', ts') -> frame ts d d' /\ incl ts' ts.
Proof.
  destruct ts as [|t ts]; cbn [read_wind].
  - intros [= <- <-]. split; [apply frame_refl | apply incl_refl].
  - destruct (matches re_wind_guard t) eqn:G.
    + destruct (parse_wind t) as [w|e]; cbn [bind]; [|discriminate].
      assert (F : frame (t :: ts) d (set_wind w d)) by frame_by G.
      destruct ts as [|v ts2].
      * intros [= <- <-]. split; [exact F | apply incl_tl, incl_refl].
      * destruct (matches re_wind_range v); intros [= <- <-];
          (split; [exact F|]).
        -- apply incl_tl, incl_tl, incl_refl.
        -- apply incl_tl, incl_refl.
    + intros [= <- <-]. split; [apply frame_refl | apply incl_refl].
Qed.

Lemma visibility_run_spec (ts : list string) :
  ts = (fst (visibility_run ts) ++ snd (visibility_run ts))%list
  /\ Forall (fun t => is_visibility_token t = true) (fst (visibility_run ts)).
Proof.
  induction ts as [|t ts [IH1 IH2]]; cbn [visibility_run];
    [split; [reflexivity | constructor]|].
  destruct (is_visibility_token t) eqn:G.
  - destruct (visibility_run ts) as [vis rest]; cbn [fst snd app] in *.
    split; [now f_equal | now constructor].
  - split; [reflexivity | constructor].
Qed.

Lemma read_visibility_frame (d d' : DecodedMetar) (ts ts' : list string) :
  read_visibility (d, ts) = Ok (d', ts') -> frame ts d d' /\ incl ts' ts.
Proof.
  unfold read_visibility.
  destruct (visibility_run_spec ts) as [Hts Hvis].
  destruct (visibility_run ts) as [vis rest]; cbn [fst snd] in *.
  assert (Hi : incl rest ts).
  { rewrite Hts. apply incl_appr, incl_refl. }
  destruct vis as [|v vis].
  - intros [= <- <-]. split; [apply frame_refl | exact Hi].
  - destruct (parse_visibility _) as [x|e]; cbn [bind]; [|discriminate].
    intros [= <- <-]. split; [|exact Hi].
    inversion Hvis as [|? ? G _]; subst.
    cbn [app]. frame_by G.
Qed.

Lemma classify_frame (ts : list string) :
  forall st st', classify ts st = Ok st' ->
    frame ts (decoded_of st) (decoded_of st')
    /\ (no_token is_weather_token ts -> weather_tokens st' = weather_tokens st)
    /\ (no_token is_cloud_token ts -> cloud_tokens st' = cloud_tokens st).
Proof.
  induction ts as [|t ts IH]; intros st st'; cbn [classify].
  - intros [= <-]. split; [apply frame_refl | split; reflexivity].
  - assert (Hi : incl ts (t :: ts)) by apply incl_tl, incl_refl.
    destruct (matches re_weather t) eqn:Gw;
      [|destruct (matches re_cloud t) eqn:Gc;
        [|destruct (matches re_temp_guard t) eqn:Gt;
          [|destruct (matches re_alt_A_guard t || matches re_alt_Q_guard t)
              eqn:Ga;
            [|destruct (String.eqb t "RMK")]]]].
    + intros H. apply IH in H. cbn in H. destruct H as (F & W & C).
      split; [|split].
      * eapply frame_weaken; eauto.
      * intros Hno. apply no_token_head in Hno.
        unfold is_weather_token in Hno. congruence.
      * intros Hno. apply C. eapply no_token_incl; eauto.
    + intros H. apply IH in H. cbn in H. destruct H as (F & W & C).
      split; [|split].
      * eapply frame_weaken; eauto.
      * intros Hno. apply W. eapply no_token_incl; eauto.
      * intros Hno. apply no_token_head in Hno.
        unfold is_cloud_token in Hno. congruence.
    + destruct (parse_temp_dewpoint t) as [td|e]; cbn [bind]; [|discriminate].
      intros H. apply IH in H. cbn [decoded_of weather_tokens cloud_tokens] in H.
      destruct H as (F & W & C).
      split; [|split].
      * eapply frame_trans; [exact Hi | | exact F]. frame_by Gt.
      * intros Hno. apply W. eapply no_token_incl; eauto.
      * intros Hno. apply C. eapply no_token_incl; eauto.
    + destruct (parse_altimeter t) as [a|e]; cbn [bind]; [|discriminate].
      intros H. apply IH in H. cbn [decoded_of weather_tokens cloud_tokens] in H.
      destruct H as (F & W & C).
      split; [|split].
      * eapply frame_trans; [exact Hi | | exact F]. frame_by Ga.
      * intros Hno. apply W. eapply no_token_incl; eauto.
      * intros Hno. apply C. eapply no_token_incl; eauto.
    + intros [= <-]. split; [apply frame_refl | split; reflexivity].
    + intros H. apply IH in H. destruct H as (F & W & C).
      split; [|split].
      * eapply frame_weaken; eauto.
      * intros Hno. apply W. eapply no_token_incl; eauto.
      * intros Hno. apply C. eapply no_token_incl; eauto.
Qed.

Lemma append_dot_not_empty (s : string) : s ++ "." <> "".
Proof. destruct s; discriminate. Qed.

Lemma finish_spec (st : loop_state) (d : DecodedMetar) :
  finish st = Ok d ->
  frame [] (decoded_of st) d
  /\ weather d = parse_weather (weather_tokens st)
  /\ parse_clouds (cloud_tokens st) = Ok (clouds d)
  /\ summary d <> "".
Proof.
  unfold finish. destruct (parse_clouds (cloud_tokens st)) as [c|e];
    cbn [bind]; [|discriminate].
  intros [= <-]. split; [|split; [|split]].
  - unfold frame; cbn. tauto.
  - reflexivity.
  - reflexivity.
  - apply append_dot_not_empty.
Qed.

Lemma skip_report_type_incl (ts : list string) : incl (skip_report_type ts) ts.
Proof.
  destruct ts as [|t ts]; [apply incl_refl|].
  unfold skip_report_type. destruct (Py.mem t _);
    [apply incl_tl|]; apply incl_refl.
Qed.

Lemma read_airport_incl (d : DecodedMetar) (ts : list string) :
  incl (snd (read_airport (d, ts))) ts.
Proof. destruct ts; [apply incl_refl | apply incl_tl, incl_refl]. Qed.

(** The whole of [decode_metar] after the tokens are known. *)
Lemma decode_tokens_spec (d d' : DecodedMetar) (ts : list string) :
  decode_tokens d ts = Ok d' ->
  frame ts (with_station ts d) d'
  /\ (no_token is_weather_token ts -> weather d' = "")
  /\ (no_token is_cloud_token ts ->
      clouds d' = "Sky conditions not reported")
  /\ summary d' <> "".
Proof.
  unfold decode_tokens, with_station.
  pose proof (skip_report_type_incl ts) as I0.
  pose proof (read_airport_incl d (skip_report_type ts)) as I1.
  destruct (read_airport (d, skip_report_type ts)) as [d1 ts1];
    cbn [fst snd] in *.
  destruct (read_time_frame d1 ts1) as [F2 I2].
  destruct (read_time (d1, ts1)) as [d2 ts2]; cbn [fst snd] in *.
  destruct (skip_auto_frame d2 ts2) as [E3 I3].
  destruct (skip_auto (d2, ts2)) as [d3 ts3]; cbn [fst snd] in *. subst d3.
  destruct (read_wind (d2, ts3)) as [[d4 ts4]|e] eqn:W; cbn [bind];
    [|discriminate].
  destruct (read_wind_frame _ _ _ _ W) as [F4 I4].
  destruct (read_visibility (d4, ts4)) as [[d5 ts5]|e] eqn:V; cbn [bind];
    [|discriminate].
  destruct (read_visibility_frame _ _ _ _ V) as [F5 I5].
  cbn [fst snd].
  destruct (classify ts5 _) as [st|e] eqn:C; cbn [bind]; [|discriminate].
  destruct (classify_frame _ _ _ C) as (F6 & W6 & C6).
  cbn [decoded_of weather_tokens cloud_tokens] in *.
  intros Hf. destruct (finish_spec _ _ Hf) as (F7 & W7 & C7 & S7).
  pose proof (incl_tran I1 I0) as J1.
  pose proof (incl_tran I3 (incl_tran I2 J1)) as J3.
  pose proof (incl_tran I4 J3) as J4.
  pose proof (incl_tran I5 J4) as J5.
  split; [|split; [|split]].
  - eapply frame_trans; [exact J1 | apply frame_refl |].
    eapply frame_trans; [exact (incl_tran I3 I2) | exact F2 |].
    eapply frame_trans; [exact I4 | exact F4 |].
    eapply frame_trans; [exact I5 | exact F5 |].
    eapply frame_trans; [apply incl_nil_l | exact F6 | exact F7].
  - intros Hno. rewrite W7, W6; [reflexivity|].
    eapply no_token_incl; eauto.
  - intros Hno. rewrite C6 in C7 by (eapply no_token_incl; eauto).
    cbn in C7. congruence.
  - exact S7.
Qed.

End Frames.

(* ================================================================== *)
(** ** Unit conversion and wind tokens *)

Section Wind.

Lemma upto_in (n : nat) (k : Z) : 0 <= k < Z.of_nat n -> In k (upto n).
Proof.
  intros H. unfold upto. apply in_map_iff. exists (Z.to_nat k).
  split; [lia|]. apply in_seq. lia.
Qed.

Lemma knots_checked_all : forallb knots_checked (upto 1000) = true.
Proof. vm_compute. reflexivity. Qed.

Lemma knots_to_mph_range (k : Z) :
  0 <= k <= 999 ->
  exists m, knots_to_mph k = Ok m /\ nearest_mph k m /\ 0 <= m.
Proof.
  intros H. pose proof knots_checked_all as A.
  rewrite forallb_forall in A. specialize (A k (upto_in 1000 k ltac:(lia))).
  unfold knots_checked in A. destruct (knots_to_mph k) as [m|e];
    [|discriminate].
  apply andb_true_iff in A. destruct A as [A1 A2].
  exists m. unfold nearest_mph. split; [reflexivity|]. split; lia.
Qed.

Lemma digit_value_range (c : ascii) :
  Py.is_digit c = true -> 0 <= Py.digit_value c <= 9.
Proof.
  unfold Py.is_digit, Py.digit_value. intros H.
  apply andb_true_iff in H. destruct H as [H1 H2].
  apply Nat.leb_le in H1, H2. lia.
Qed.

(** Symbolic evaluation of the matcher on a token whose digits are known
    only to be digits. *)
Ltac match_digits :=
  repeat (cbn [fold_right run append Nat.pred String.length];
          repeat match goal with
                 | H : Py.is_digit ?c = true |- context [Py.is_digit ?c] =>
                     rewrite H
                 end).

Ltac split_digits H :=
  cbn [all_digits] in H;
  repeat match type of H with
         | (_ && _) = true =>
             let H1 := fresh "D" in
             apply andb_true_iff in H; destruct H as [H1 H]
         end.

(** The three shapes of a field of two or three digits. *)
Lemma knots_field_shape (s : string) :
  knots_field s ->
  exists c1 c2 r,
    s = String c1 (String c2 r)
    /\ Py.is_digit c1 = true /\ Py.is_digit c2 = true
    /\ (r = "" \/ exists c3, r = String c3 "" /\ Py.is_digit c3 = true).
Proof.
  intros [D L].
  destruct s as [|c1 [|c2 [|c3 [|c4 s]]]]; cbn in L;
    try (exfalso; lia).
  - split_digits D. exists c1, c2, "". auto.
  - split_digits D. exists c1, c2, (String c3 ""). repeat split; eauto.
Qed.

Lemma knots_field_int (s : string) :
  knots_field s -> exists n, Py.int s = Ok n /\ 0 <= n <= 999.
Proof.
  intros H. destruct (knots_field_shape s H)
    as (c1 & c2 & r & -> & D1 & D2 & [-> | (c3 & -> & D3)]);
    unfold Py.int; cbn [Py.int_digits]; rewrite ?D1, ?D2, ?D3;
    eexists; (split; [reflexivity|]);
    pose proof (digit_value_range _ D1); pose proof (digit_value_range _ D2);
    try pose proof (digit_value_range _ D3); lia.
Qed.

Lemma append_assoc (a b c : string) : (a ++ b) ++ c = a ++ (b ++ c).
Proof. induction a as [|x a IH]; cbn; [reflexivity | now rewrite IH]. Qed.

Lemma Ok_inj (A : Type) (a b : A) : Ok a = Ok b -> a = b.
Proof. now intros [= ->]. Qed.

Lemma digit_is_not (c x : ascii) :
  Py.is_digit x = false -> Py.is_digit c = true -> Ascii.eqb x c = false.
Proof.
  intros Hx Hc. destruct (Ascii.eqb_spec x c) as [->|]; congruence.
Qed.

Ltac eval_wind :=
  repeat (cbn [fold_right run append Nat.pred String.length Nat.sub Py.take
               group int_group Nat.eqb Py.int Py.int_digits bind
               Py.is_empty];
          repeat match goal with
                 | H : Py.is_digit ?c = true |- context [Py.is_digit ?c] =>
                     rewrite H
                 | H : Py.is_digit ?c = true |- context [Ascii.eqb ?x ?c] =>
                     rewrite (digit_is_not c x eq_refl H)
                 | |- context [Py.is_digit ?x] =>
                     tryif is_var x then fail else
                       (let v := eval vm_compute in (Py.is_digit x) in
                        change (Py.is_digit x) with v)
                 | |- context [Ascii.eqb ?x ?y] =>
                     tryif is_var y then fail else
                       (let v := eval vm_compute in (Ascii.eqb x y) in
                        change (Ascii.eqb x y) with v)
                 end).

Lemma parse_wind_fixed (dir speed : string) (gust : option string) (d k : Z) :
  all_digits dir = true -> String.length dir = 3%nat ->
  knots_field speed ->
  (forall g, gust = Some g -> knots_field g) ->
  Py.int dir = Ok d -> Py.int speed = Ok k -> k <> 0 ->
  exists rest,
    parse_wind (fixed_wind_token dir speed gust)
    = Ok ("Wind from the " ++ degrees_to_direction (inject_Z d) ++ " at "
          ++ rest).
Proof.
  intros Dd Ld Hs Hg Hd Hk Hk0.
  destruct dir as [|a1 [|a2 [|a3 [|a4 dir]]]]; try discriminate Ld.
  split_digits Dd.
  destruct (knots_field_int speed Hs) as (k' & Hk' & Rk).
  assert (k' = k) by congruence. subst k'. clear Hk'.
  destruct (knots_to_mph_range k Rk) as (m & Hm & _).
  assert (G : gust = None
              \/ exists g n mg, gust = Some g /\ knots_field g
                   /\ Py.int g = Ok n
                   /\ (n = 0 \/ knots_to_mph n = Ok mg)).
  { destruct gust as [g|]; [right | now left].
    pose proof (Hg g eq_refl) as Kg.
    destruct (knots_field_int g Kg) as (n & Hn & Rn).
    destruct (knots_to_mph_range n Rn) as (mg & Hmg & _).
    exists g, n, mg. auto. }
  clear Hg.
  destruct (knots_field_shape speed Hs)
    as (s1 & s2 & r & -> & S1 & S2 & [-> | (s3 & -> & S3)]);
  (destruct G as [-> | (g & n & mg & -> & Kg & Hn & Hmg)];
   [| destruct (knots_field_shape g Kg)
        as (g1 & g2 & r & -> & G1 & G2 & [-> | (g3 & -> & G3)])]);
  unfold parse_wind, fixed_wind_token, re_match, re_wind_vrb, re_wind_std,
    Re.seq, times, range, opt, lit;
  unfold Py.int in Hd, Hk; try unfold Py.int in Hn;
  cbn [Py.int_digits] in Hd, Hk; try cbn [Py.int_digits] in Hn;
  rewrite ?D, ?D0, ?D1 in Hd; rewrite ?S1, ?S2, ?S3 in Hk;
  try rewrite ?G1, ?G2, ?G3 in Hn;
  apply Ok_inj in Hd, Hk; try apply Ok_inj in Hn;
  eval_wind; rewrite Hd, Hk, ?Hn;
  (destruct (Z.eqb_spec k 0) as [|_]; [contradiction|]);
  rewrite Hm; cbn [bind];
  try (destruct (Z.eqb_spec n 0) as [|N0];
       [|destruct Hmg as [|Hmg]; [contradiction|]; rewrite Hmg; cbn [bind]]);
  eexists; f_equal; rewrite ?append_assoc; cbn [append]; reflexivity.
Qed.

End Wind.

(* ================================================================== *)
(** ** The remarks marker *)

Section Remarks.

Variable post : list string.

Lemma rmk_is_no_field :
  matches re_time_guard "RMK" = false
  /\ matches re_wind_guard "RMK" = false
  /\ matches re_wind_range "RMK" = false
  /\ is_visibility_token "RMK" = false
  /\ matches re_weather "RMK" = false
  /\ matches re_cloud "RMK" = false
  /\ matches re_temp_guard "RMK" = false
  /\ matches re_alt_A_guard "RMK" = false
  /\ matches re_alt_Q_guard "RMK" = false.
Proof. vm_compute. repeat split. Qed.

Lemma skip_report_type_cons (t : string) (l : list string) :
  skip_report_type (t :: l)
  = if Py.mem t ["METAR"; "SPECI"] then l else t :: l.
Proof. reflexivity. Qed.

Lemma skip_report_type_rmk (pre : list string) :
  has_station pre ->
  skip_report_type (pre ++ "RMK" :: post)
  = (skip_report_type pre ++ "RMK" :: post)%list.
Proof.
  destruct pre as [|t pre]; [unfold has_station; cbn; congruence|].
  intros _. rewrite <- app_comm_cons, !skip_report_type_cons.
  now destruct (Py.mem t _).
Qed.

Lemma read_airport_rmk (c : cursor) :
  snd c <> [] ->
  read_airport (extend post c) = extend post (read_airport c).
Proof. destruct c as [d [|t l]]; [cbn; congruence | reflexivity]. Qed.

Lemma read_time_rmk (c : cursor) :
  read_time (extend post c) = extend post (read_time c).
Proof.
  destruct rmk_is_no_field as (G & _).
  destruct c as [d [|t l]]; unfold extend, read_time; cbn [fst snd app].
  - now rewrite G.
  - destruct (matches re_time_guard t); [|reflexivity].
    destruct (re_match re_time t); reflexivity.
Qed.

Lemma skip_auto_rmk (c : cursor) :
  skip_auto (extend post c) = extend post (skip_auto c).
Proof.
  destruct c as [d [|t l]]; unfold extend, skip_auto; cbn [fst snd app];
    [reflexivity|].
  destruct (String.eqb t "AUTO"); reflexivity.
Qed.

Lemma read_wind_rmk (c : cursor) :
  read_wind (extend post c)
  = bind (read_wind c) (fun c' => Ok (extend post c')).
Proof.
  destruct rmk_is_no_field as (_ & G & R & _).
  destruct c as [d [|t l]]; unfold extend, read_wind;
    cbn [fst snd app bind].
  - now rewrite G.
  - destruct (matches re_wind_guard t); [|reflexivity].
    destruct (parse_wind t) as [w|e]; cbn [bind]; [|reflexivity].
    destruct l as [|v l]; cbn [fst snd app bind].
    + now rewrite R.
    + destruct (matches re_wind_range v); reflexivity.
Qed.

Lemma visibility_run_rmk (l : list string) :
  visibility_run (l ++ "RMK" :: post)
  = (fst (visibility_run l), (snd (visibility_run l) ++ "RMK" :: post)%list).
Proof.
  destruct rmk_is_no_field as (_ & _ & _ & G & _).
  induction l as [|t l IH]; cbn [visibility_run fst snd app].
  - now rewrite G.
  - destruct (is_visibility_token t); [|reflexivity].
    rewrite IH. now destruct (visibility_run l).
Qed.

Lemma read_visibility_rmk (c : cursor) :
  read_visibility (extend post c)
  = bind (read_visibility c) (fun c' => Ok (extend post c')).
Proof.
  destruct c as [d l]. unfold read_visibility, extend; cbn [fst snd].
  rewrite visibility_run_rmk.
  destruct (visibility_run l) as [vis rest]; cbn [fst snd].
  destruct vis; [reflexivity|].
  now destruct (parse_visibility _).
Qed.

(** The loop stops at the marker, as it does at the end of the tokens. *)
Lemma classify_rmk (l : list string) :
  forall st, classify (l ++ "RMK" :: post) st = classify l st.
Proof.
  destruct rmk_is_no_field as (_ & _ & _ & _ & W & C & T & A & Q).
  induction l as [|t l IH]; intros st; cbn [classify app].
  - now rewrite W, C, T, A, Q.
  - destruct (matches re_weather t); [apply IH|].
    destruct (matches re_cloud t); [apply IH|].
    destruct (matches re_temp_guard t).
    { destruct (parse_temp_dewpoint t); cbn [bind]; [apply IH | reflexivity]. }
    destruct (_ || _).
    { destruct (parse_altimeter t); cbn [bind]; [apply IH | reflexivity]. }
    destruct (String.eqb t "RMK"); [reflexivity | apply IH].
Qed.

Lemma decode_tokens_rmk (d : DecodedMetar) (pre : list string) :
  has_station pre ->
  decode_tokens d (pre ++ "RMK" :: post) = decode_tokens d pre.
Proof.
  intros Hne. unfold decode_tokens.
  rewrite (skip_report_type_rmk pre Hne).
  change (d, (skip_report_type pre ++ "RMK" :: post)%list)
    with (extend post (d, skip_report_type pre)).
  rewrite read_airport_rmk by exact Hne.
  rewrite read_time_rmk, skip_auto_rmk, read_wind_rmk.
  destruct (read_wind _) as [c1|e]; cbn [bind]; [|reflexivity].
  rewrite read_visibility_rmk.
  destruct (read_visibility _) as [c2|e]; cbn [bind]; [|reflexivity].
  unfold extend; cbn [fst snd]. now rewrite classify_rmk.
Qed.

End Remarks.

(* ================================================================== *)
(** ** Weather groups made of descriptors only *)

Section Descriptors.

(** No pattern of the classification loop accepts such a token: the
    cases are the sign, the vicinity marker and the first two
    descriptors, whatever follows them. *)
Lemma descriptor_token_skipped (i : intensity) (vc : bool)
    (ds : list descriptor) :
  let t := descriptor_token i vc ds in
  matches re_weather t = false
  /\ matches re_cloud t = false
  /\ matches re_temp_guard t = false
  /\ matches re_alt_A_guard t = false
  /\ matches re_alt_Q_guard t = false
  /\ String.eqb t "RMK" = false.
Proof.
  destruct ds as [|d1 [|d2 ds]].
  - destruct i, vc; vm_compute; repeat split.
  - destruct i, vc, d1; vm_compute; repeat split.
  - destruct i, vc, d1, d2; vm_compute; repeat split.
Qed.

End Descriptors.

(* ================================================================== *)
(** ** The claims *)

Section RoundTrip.

Lemma with_station_raw (ts : list string) (d : DecodedMetar) :
  raw_metar (with_station ts d) = raw_metar d.
Proof. unfold with_station. now destruct (skip_report_type ts). Qed.

Lemma decode_metar_raw (s : string) (d : DecodedMetar) :
  decode_metar s = Ok d -> raw_metar d = Py.strip s.
Proof.
  unfold decode_metar. destruct (Py.split (Py.strip s)) as [|t ts].
  - now intros [= <-].
  - intros H. apply decode_tokens_spec in H.
    destruct H as ((_ & _ & _ & _ & _ & _ & _ & R) & _).
    now rewrite R, with_station_raw.
Qed.

Lemma decode_metar_strip (s : string) :
  decode_metar (Py.strip s) = decode_metar s.
Proof. unfold decode_metar. now rewrite strip_idempotent. Qed.

End RoundTrip.

(** C2: decoding the [raw_metar] field of a decoded report gives the same
    report again: the field is the trimmed input, trimming it once more
    changes nothing, and the decoder reads its input only through the
    trimmed text. *)
Theorem decode_metar_idempotent (s : string) (d : DecodedMetar) :
  decode_metar s = Ok d ->
  raw_metar d = Py.strip s
  /\ Py.strip (raw_metar d) = raw_metar d
  /\ decode_metar (raw_metar d) = Ok d.
Proof.
  intros H. pose proof (decode_metar_raw s d H) as R.
  rewrite R. split; [reflexivity|]. split.
  - apply strip_idempotent.
  - now rewrite decode_metar_strip.
Qed.

Lemma decode_metar_idempotent_witness :
  raw_metar clear_calm_decoded
  = Py.strip "  METAR KJFK 251200Z 00000KT 10SM CLR 20/10 A3000 "
  /\ Py.strip (raw_metar clear_calm_decoded) = raw_metar clear_calm_decoded
  /\ decode_metar (raw_metar clear_calm_decoded) = Ok clear_calm_decoded.
Proof.
  apply (decode_metar_idempotent
           "  METAR KJFK 251200Z 00000KT 10SM CLR 20/10 A3000 ").
  vm_compute. reflexivity.
Defined.

(** C1: the fractional branch of [parse_visibility] divides by the
    denominator it has read, so a report with the token [1/0SM] makes
    [decode_metar] raise ZeroDivisionError instead of returning a
    record. *)
Theorem zero_denominator_raises :
  is_visibility_token "1/0SM" = true
  /\ parse_visibility "1/0SM" = Raise ZeroDivisionError
  /\ decode_metar "KJFK 1/0SM" = Raise ZeroDivisionError.
Proof. repeat split; vm_compute; reflexivity. Qed.

(** C4: [knots_to_mph] returns the integer nearest to the speed times
    1.15078, for every speed a wind token can carry, and the values of the
    specification in particular. *)
Theorem knots_to_mph_nearest :
  (forall knots, 0 <= knots <= 999 ->
     exists m, knots_to_mph knots = Ok m /\ nearest_mph knots m)
  /\ knots_to_mph 0 = Ok 0
  /\ knots_to_mph 5 = Ok 6
  /\ knots_to_mph 10 = Ok 12
  /\ knots_to_mph 15 = Ok 17
  /\ knots_to_mph 20 = Ok 23
  /\ knots_to_mph 25 = Ok 29
  /\ knots_to_mph 30 = Ok 35
  /\ knots_to_mph 100 = Ok 115.
Proof.
  split.
  - intros k Hk. destruct (knots_to_mph_range k Hk) as (m & E & N & _).
    now exists m.
  - repeat split; vm_compute; reflexivity.
Qed.

Lemma knots_to_mph_nearest_witness :
  exists m, knots_to_mph 10 = Ok m /\ nearest_mph 10 m.
Proof. apply (proj1 knots_to_mph_nearest 10). lia. Defined.

(* ================================================================== *)
(** ** The compass table *)

Section Compass.

Lemma Qle_bool_below (a b q : Q) :
  Qle_bool a b = true -> (b <= q)%Q -> Qle_bool a q = true.
Proof.
  intros H Hq. apply Qle_bool_iff. apply Qle_bool_iff in H.
  now apply Qle_trans with b.
Qed.

Lemma Qle_bool_above (b q : Q) : (q < b)%Q -> Qle_bool b q = false.
Proof.
  intros H. destruct (Qle_bool b q) eqn:E; [|reflexivity].
  apply Qle_bool_iff in E. exfalso. exact (Qlt_not_le _ _ H E).
Qed.

(** The sectors cover the directions from 0 up to 360, 360 excluded. *)
Lemma sectors_cover (q : Q) :
  (0 <= q)%Q -> (q < 360)%Q -> In (degrees_to_direction q) compass_points.
Proof.
  intros H0 H1.
  unfold degrees_to_direction, COMPASS_DIRECTIONS, first_sector.
  rewrite (Qle_bool_below 0 0 q eq_refl H0), (Qle_bool_above 360 q H1).
  repeat match goal with
         | |- context [Qle_bool ?a q] => destruct (Qle_bool a q)
         end; cbn; auto 10.
Qed.

(** The last sector: from 337.5 up to 360, 360 excluded. *)
Lemma last_sector_north (q : Q) :
  (337.5 <= q)%Q -> (q < 360)%Q -> degrees_to_direction q = "north".
Proof.
  intros H0 H1.
  unfold degrees_to_direction, COMPASS_DIRECTIONS, first_sector.
  rewrite (Qle_bool_above 360 q H1).
  repeat match goal with
         | |- context [Qle_bool ?a q] =>
             rewrite (Qle_bool_below a 337.5 q eq_refl H0)
         end.
  reflexivity.
Qed.

(** No sector contains 360. *)
Lemma no_sector_360 (sector : (Q * Q) * string) :
  In sector COMPASS_DIRECTIONS -> ~ in_sector 360 sector.
Proof.
  unfold in_sector, COMPASS_DIRECTIONS. cbn [In].
  intros H (_ & U).
  repeat (destruct H as [<-|H]; [now vm_compute in U|]).
  exact H.
Qed.

End Compass.

(* ================================================================== *)
(** ** The raw text is only carried along *)

Section RawText.

Variable r : string.

Lemma read_airport_retext (c : cursor) :
  read_airport (retext r c) = retext r (read_airport c).
Proof. destruct c as [d [|t ts]]; reflexivity. Qed.

Lemma read_time_retext (c : cursor) :
  read_time (retext r c) = retext r (read_time c).
Proof.
  destruct c as [d [|t ts]]; [reflexivity|].
  unfold read_time, retext; cbn [fst snd].
  destruct (matches re_time_guard t); [|reflexivity].
  now destruct (re_match re_time t).
Qed.

Lemma skip_auto_retext (c : cursor) :
  skip_auto (retext r c) = retext r (skip_auto c).
Proof.
  destruct c as [d [|t ts]]; [reflexivity|].
  unfold skip_auto, retext; cbn [fst snd].
  now destruct (String.eqb t "AUTO").
Qed.

Lemma read_wind_retext (c : cursor) :
  read_wind (retext r c) = result_map (retext r) (read_wind c).
Proof.
  destruct c as [d [|t ts]]; [reflexivity|].
  unfold read_wind, retext; cbn [fst snd].
  destruct (matches re_wind_guard t); [|reflexivity].
  destruct (parse_wind t); cbn [bind result_map]; [|reflexivity].
  destruct ts as [|v ts]; [reflexivity|].
  now destruct (matches re_wind_range v).
Qed.

Lemma read_visibility_retext (c : cursor) :
  read_visibility (retext r c) = result_map (retext r) (read_visibility c).
Proof.
  destruct c as [d ts].
  unfold read_visibility, retext; cbn [fst snd].
  destruct (visibility_run ts) as [[|v vs] rest]; [reflexivity|].
  now destruct (parse_visibility _).
Qed.

Lemma classify_retext (ts : list string) (st : loop_state) :
  classify ts (retext_state r st) = result_map (retext_state r) (classify ts st).
Proof.
  revert st. induction ts as [|t ts IH]; intros st; [reflexivity|].
  cbn [classify].
  destruct (matches re_weather t).
  { exact (IH {| decoded_of := decoded_of st;
                 weather_tokens := Py.append (weather_tokens st) t;
                 cloud_tokens := cloud_tokens st |}). }
  destruct (matches re_cloud t).
  { exact (IH {| decoded_of := decoded_of st;
                 weather_tokens := weather_tokens st;
                 cloud_tokens := Py.append (cloud_tokens st) t |}). }
  destruct (matches re_temp_guard t).
  { destruct (parse_temp_dewpoint t) as [td|e]; cbn [bind result_map];
      [|reflexivity].
    exact (IH {| decoded_of :=
                   set_dewpoint (snd td)
                     (set_temperature (fst td) (decoded_of st));
                 weather_tokens := weather_tokens st;
                 cloud_tokens := cloud_tokens st |}). }
  destruct (_ || _).
  { destruct (parse_altimeter t) as [a|e]; cbn [bind result_map];
      [|reflexivity].
    exact (IH {| decoded_of := set_altimeter a (decoded_of st);
                 weather_tokens := weather_tokens st;
                 cloud_tokens := cloud_tokens st |}). }
  destruct (String.eqb t "RMK"); [reflexivity | apply IH].
Qed.

Lemma finish_retext (st : loop_state) :
  finish (retext_state r st) = result_map (set_raw_metar r) (finish st).
Proof.
  unfold finish. cbn [retext_state decoded_of weather_tokens cloud_tokens].
  now destruct (parse_clouds (cloud_tokens st)).
Qed.

Lemma decode_tokens_retext (d : DecodedMetar) (ts : list string) :
  decode_tokens (set_raw_metar r d) ts
  = result_map (set_raw_metar r) (decode_tokens d ts).
Proof.
  unfold decode_tokens.
  change (set_raw_metar r d, skip_report_type ts)
    with (retext r (d, skip_report_type ts)).
  rewrite read_airport_retext, read_time_retext, skip_auto_retext,
    read_wind_retext.
  destruct (read_wind _) as [c1|e]; cbn [bind result_map]; [|reflexivity].
  rewrite read_visibility_retext.
  destruct (read_visibility _) as [c2|e]; cbn [bind result_map]; [|reflexivity].
  change (classify (snd (retext r c2))
            {| decoded_of := fst (retext r c2); weather_tokens := [];
               cloud_tokens := [] |})
    with (classify (snd c2)
            (retext_state r {| decoded_of := fst c2; weather_tokens := [];
                               cloud_tokens := [] |})).
  rewrite classify_retext.
  destruct (classify _ _) as [st|e]; cbn [bind result_map]; [|reflexivity].
  apply finish_retext.
Qed.

End RawText.

(* ================================================================== *)
(** ** Reports without data *)

Section Defaults.

Lemma decode_metar_empty : decode_metar "" = Ok DecodedMetar_default.
Proof. reflexivity. Qed.


(** The mark between a temperature value and its unit letter is not the
    degree sign the test suite looks for. *)
Lemma unit_mark_not_degree_sign :
  unit_mark <> degree_sign
  /\ Py.contains ("68" ++ degree_sign ++ "F") (temperature clear_calm_decoded)
     = false
  /\ Py.contains ("68" ++ unit_mark ++ "F") (temperature clear_calm_decoded)
     = true.
Proof. split; [discriminate|]. split; vm_compute; reflexivity. Qed.

End Defaults.

(** C5, as amended: the empty input decodes to the record of empty
    fields, and in every decoded report a field whose condition no token
    satisfies is empty, except that without cloud tokens the cloud
    description of a report that has tokens is the phrase "Sky conditions
    not reported", and that its summary is never empty. *)
Theorem absent_fields :
  decode_metar "" = Ok DecodedMetar_default
  /\ forall s d, decode_metar s = Ok d ->
       (no_token is_time_token (tokens_of s) -> observation_time d = "")
       /\ (no_token is_wind_token (tokens_of s) -> wind d = "")
       /\ (no_token is_visibility_token (tokens_of s) -> visibility d = "")
       /\ (no_token is_weather_token (tokens_of s) -> weather d = "")
       /\ (no_token is_temp_token (tokens_of s) ->
           temperature d = "" /\ dewpoint d = "")
       /\ (no_token is_altimeter_token (tokens_of s) -> altimeter d = "")
       /\ (skip_report_type (tokens_of s) = [] -> airport d = "")
       /\ flight_category d = ""
       /\ (tokens_of s = [] -> d = DecodedMetar_default)
       /\ (tokens_of s <> [] ->
           summary d <> ""
           /\ (no_token is_cloud_token (tokens_of s) ->
               clouds d = "Sky conditions not reported")).
Proof.
  split; [exact decode_metar_empty|].
  intros s d. unfold decode_metar. fold (tokens_of s).
  pose proof (tokens_nil_strip s) as E.
  destruct (tokens_of s) as [|t ts] eqn:T.
  - intros [= <-]. rewrite (E eq_refl). cbn.
    repeat split; intros; try reflexivity; congruence.
  - clear E. intros H. apply decode_tokens_spec in H.
    destruct H as ((F1 & F2 & F3 & F4 & F5 & F6 & F7 & _) & W & C & S).
    unfold with_station in *.
    assert (A : skip_report_type (t :: ts) = [] -> airport d = "").
    { intros K. rewrite K in F6. exact F6. }
    destruct (skip_report_type (t :: ts)) as [|t0 ts0];
      cbn [read_airport fst] in *; cbn in F1, F2, F3, F4, F5, F7.
    all: split; [exact F1|]; split; [exact F2|]; split; [exact F3|];
      split; [exact W|]; split; [exact F4|]; split; [exact F5|];
      split; [exact A|]; split; [exact F7|]; split; [discriminate|];
      intros _; split; [exact S | exact C].
Qed.

Lemma absent_fields_witness :
  exists d, decode_metar "KJFK" = Ok d
    /\ observation_time d = "" /\ wind d = "" /\ visibility d = ""
    /\ weather d = "" /\ temperature d = "" /\ altimeter d = ""
    /\ clouds d = "Sky conditions not reported".
Proof.
  destruct (decode_metar "KJFK") as [d|e] eqn:E; [|discriminate E].
  exists d. split; [reflexivity|].
  assert (N : forall g, g "KJFK" = false -> no_token g (tokens_of "KJFK")).
  { intros g Hg. repeat constructor. exact Hg. }
  destruct (proj2 absent_fields "KJFK" d E)
    as (A1 & A2 & A3 & A4 & A5 & A6 & _ & _ & _ & A10).
  repeat split;
    [apply A1 | apply A2 | apply A3 | apply A4 | apply A5 | apply A6
    | apply A10; [discriminate|]]; apply N; reflexivity.
Defined.

(** C5, as stated, fails: the report [KJFK] has no cloud token and its
    cloud description is not empty. *)
Lemma station_only_clouds_not_empty :
  no_token is_cloud_token (tokens_of "KJFK")
  /\ exists d, decode_metar "KJFK" = Ok d
       /\ clouds d = "Sky conditions not reported"
       /\ clouds d <> "".
Proof.
  split.
  - repeat constructor.
  - eexists. split; [vm_compute; reflexivity|]. split; [reflexivity|].
    discriminate.
Qed.



(** C7: a whole number standing alone is no visibility token for
    [decode_metar], so of the group [1 1/2SM] nothing reaches
    [parse_visibility], which would read it as 1.5 miles, and the
    visibility field stays empty. *)
Theorem mixed_visibility_not_decoded :
  is_visibility_token "1" = false
  /\ parse_visibility "1 1/2SM" = Ok "Visibility 1.5 miles (reduced)"
  /\ exists d,
       decode_metar "METAR KJFK 251200Z 00000KT 1 1/2SM CLR 20/10 A3000"
       = Ok d
       /\ visibility d = "".
Proof.
  split; [reflexivity|]. split; [vm_compute; reflexivity|].
  eexists. split; [vm_compute; reflexivity | reflexivity].
Qed.

(** C3: the direction of a fixed-direction wind token is a compass point
    for every direction from 0 up to 360, 360 excluded: 0 and 359 are
    north, the boundary 22.5 is northeast, and the last sector, from 337.5
    on, is north.  The direction 360 itself is in no sector: the token
    [36030KT], which the test suite expects to be a north wind, is decoded
    as a wind from the "variable", which is no compass point. *)
Theorem direction_360_is_no_compass_point :
  (forall dir speed gust d k,
     all_digits dir = true -> String.length dir = 3%nat ->
     knots_field speed -> (forall g, gust = Some g -> knots_field g) ->
     Py.int dir = Ok d -> Py.int speed = Ok k -> k <> 0 ->
     0 <= d < 360 ->
     exists point rest,
       parse_wind (fixed_wind_token dir speed gust)
       = Ok ("Wind from the " ++ point ++ " at " ++ rest)
       /\ point = degrees_to_direction (inject_Z d)
       /\ In point compass_points)
  /\ degrees_to_direction 0 = "north"
  /\ degrees_to_direction 22.5 = "northeast"
  /\ degrees_to_direction 359 = "north"
  /\ (forall q, (337.5 <= q)%Q -> (q < 360)%Q ->
        degrees_to_direction q = "north")
  /\ fixed_wind_token "360" "30" None = "36030KT"
  /\ parse_wind "36030KT" = Ok "Wind from the variable at 35 mph"
  /\ Py.contains "north" (Py.lower "Wind from the variable at 35 mph") = false
  /\ ~ In (degrees_to_direction 360) compass_points.
Proof.
  split.
  { intros dir speed gust d k Dd Ld Hs Hg Hd Hk Hk0 [L U].
    destruct (parse_wind_fixed dir speed gust d k Dd Ld Hs Hg Hd Hk Hk0)
      as (rest & E).
    exists (degrees_to_direction (inject_Z d)), rest.
    split; [exact E|]. split; [reflexivity|].
    apply sectors_cover.
    - change 0%Q with (inject_Z 0). rewrite <- Zle_Qle. exact L.
    - change 360%Q with (inject_Z 360). rewrite <- Zlt_Qlt. exact U. }
  split; [reflexivity|]. split; [reflexivity|]. split; [reflexivity|].
  split; [exact last_sector_north|].
  split; [reflexivity|]. split; [vm_compute; reflexivity|].
  split; [vm_compute; reflexivity|].
  vm_compute. intros H.
  repeat (destruct H as [H|H]; [discriminate H|]). exact H.
Qed.

(** C8, as amended: when the tokens in front of a remarks marker hold the
    station identifier, the report is decoded as the report cut in front
    of the marker is, raw text apart: no token after the marker reaches
    a field. *)
Theorem remarks_ignored (s s' : string) (pre post : list string) :
  tokens_of s = (pre ++ "RMK" :: post)%list ->
  tokens_of s' = pre ->
  has_station pre ->
  decode_metar s = result_map (set_raw_metar (Py.strip s)) (decode_metar s').
Proof.
  intros Hs Hs' Hpre. unfold decode_metar.
  fold (tokens_of s). fold (tokens_of s'). rewrite Hs, Hs'.
  destruct pre as [|p pre]; [now elim Hpre|].
  cbn [app]. rewrite (app_comm_cons pre ("RMK" :: post) p).
  rewrite (decode_tokens_rmk post _ (p :: pre) Hpre).
  rewrite !decode_tokens_retext.
  now destruct (decode_tokens DecodedMetar_default (p :: pre)).
Qed.

Lemma remarks_ignored_witness :
  decode_metar "KJFK 251200Z RMK FEW030 20/10"
  = result_map (set_raw_metar (Py.strip "KJFK 251200Z RMK FEW030 20/10"))
      (decode_metar "KJFK 251200Z").
Proof.
  apply (remarks_ignored "KJFK 251200Z RMK FEW030 20/10" "KJFK 251200Z"
           ["KJFK"; "251200Z"] ["FEW030"; "20/10"]).
  - reflexivity.
  - reflexivity.
  - discriminate.
Defined.

(** C8, as stated, fails: a remarks marker in the place of the station
    identifier is read as the station, and the tokens after it are
    decoded. *)
Lemma remarks_marker_as_station :
  exists d, decode_metar "RMK 251200Z FEW030" = Ok d
    /\ tokens_of "RMK 251200Z FEW030" = ["RMK"; "251200Z"; "FEW030"]
    /\ airport d = "RMK"
    /\ observation_time d = "Day 25 at 12:00 UTC"
    /\ clouds d = "Few clouds at 3,000 feet".
Proof.
  eexists. split; [vm_compute; reflexivity|]. repeat split.
Qed.

(** C9: the direction 360 is in no sector of the compass table, so
    [degrees_to_direction] returns "variable" for it, and [parse_wind]
    describes a wind token whose direction field is 360 as a wind from the
    "variable", whatever its speed and gust, the speed not being zero. *)
Theorem direction_360_is_variable (speed : string) (gust : option string)
    (k : Z) :
  knots_field speed -> (forall g, gust = Some g -> knots_field g) ->
  Py.int speed = Ok k -> k <> 0 ->
  degrees_to_direction 360 = "variable"
  /\ (forall sector, In sector COMPASS_DIRECTIONS -> ~ in_sector 360 sector)
  /\ exists rest,
       parse_wind (fixed_wind_token "360" speed gust)
       = Ok ("Wind from the variable at " ++ rest).
Proof.
  intros Hs Hg Hk Hk0.
  split; [reflexivity|]. split; [exact no_sector_360|].
  destruct (parse_wind_fixed "360" speed gust 360 k eq_refl eq_refl Hs Hg
              eq_refl Hk Hk0) as (rest & E).
  exists rest. exact E.
Qed.

Lemma direction_360_is_variable_witness :
  degrees_to_direction 360 = "variable"
  /\ (forall sector, In sector COMPASS_DIRECTIONS -> ~ in_sector 360 sector)
  /\ exists rest,
       parse_wind (fixed_wind_token "360" "10" None)
       = Ok ("Wind from the variable at " ++ rest).
Proof.
  apply (direction_360_is_variable "10" None 10).
  - split; [reflexivity | left; reflexivity].
  - discriminate.
  - reflexivity.
  - lia.
Defined.

(** C10: a token made of an intensity sign, a vicinity marker and
    descriptor codes only, such as [TS], [+TS] and [-SH], is no weather
    token for the classifier, and the classification loop passes over it
    with its state, the weather tokens in it, unchanged. *)
Theorem descriptor_only_token_ignored :
  (forall i vc ds,
     is_weather_token (descriptor_token i vc ds) = false
     /\ forall rest st,
          classify (descriptor_token i vc ds :: rest) st = classify rest st)
  /\ descriptor_token Moderate false [TS] = "TS"
  /\ descriptor_token Heavy false [TS] = "+TS"
  /\ descriptor_token Light false [SH] = "-SH"
  /\ exists d, decode_metar "KJFK 251200Z 18010KT 10SM +TS -SH TS" = Ok d
       /\ weather d = "".
Proof.
  split.
  { intros i vc ds.
    destruct (descriptor_token_skipped i vc ds) as (W & C & T & A & Q & R).
    split; [exact W|]. intros rest st. cbn [classify].
    now rewrite W, C, T, A, Q, R. }
  split; [reflexivity|]. split; [reflexivity|]. split; [reflexivity|].
  eexists. split; [vm_compute; reflexivity | reflexivity].
Qed.

(* ================================================================== *)
(** ** Unit conversions *)

Section Conversions.

Lemma celsius_checked_all :
  forallb celsius_checked (map (fun k => k - 1000) (upto 2001)) = true.
Proof. vm_compute. reflexivity. Qed.

Lemma celsius_to_fahrenheit_range (c : Z) :
  -1000 <= c <= 1000 ->
  exists f, celsius_to_fahrenheit c = Ok f /\ nearest_fahrenheit c f.
Proof.
  intros H. pose proof celsius_checked_all as A.
  rewrite forallb_forall in A. specialize (A c).
  unfold celsius_checked in A.
  destruct (celsius_to_fahrenheit c) as [f|e].
  - exists f. split; [reflexivity|]. unfold nearest_fahrenheit.
    apply Z.ltb_lt, A. apply in_map_iff. exists (c + 1000).
    split; [lia|]. apply upto_in. lia.
  - exfalso. assert (false = true); [|discriminate].
    apply A. apply in_map_iff. exists (c + 1000).
    split; [lia|]. apply upto_in. lia.
Qed.

End Conversions.

(** The Fahrenheit value [celsius_to_fahrenheit] returns is the integer
    nearest to [celsius * 9 / 5 + 32], for every temperature from -1000 to
    1000 degrees, the two-digit values of a report among them: the
    division and the addition in binary64 lose nothing there. *)
Theorem celsius_to_fahrenheit_nearest (celsius : Z) :
  -1000 <= celsius <= 1000 ->
  exists f, celsius_to_fahrenheit celsius = Ok f
    /\ nearest_fahrenheit celsius f.
Proof. exact (celsius_to_fahrenheit_range celsius). Qed.

Lemma celsius_to_fahrenheit_nearest_witness :
  exists f, celsius_to_fahrenheit (-40) = Ok f /\ nearest_fahrenheit (-40) f.
Proof. apply (celsius_to_fahrenheit_nearest (-40)). lia. Defined.

(** [celsius_to_fahrenheit] is strictly increasing: two different Celsius
    values never show the same Fahrenheit value. *)
Theorem celsius_to_fahrenheit_increasing (c c' f f' : Z) :
  -1000 <= c -> c < c' -> c' <= 1000 ->
  celsius_to_fahrenheit c = Ok f -> celsius_to_fahrenheit c' = Ok f' ->
  f < f'.
Proof.
  intros L H U E E'.
  destruct (celsius_to_fahrenheit_range c ltac:(lia)) as (g & G & N).
  destruct (celsius_to_fahrenheit_range c' ltac:(lia)) as (g' & G' & N').
  assert (g = f) by congruence. assert (g' = f') by congruence. subst g g'.
  unfold nearest_fahrenheit in N, N'. lia.
Qed.

Lemma celsius_to_fahrenheit_increasing_witness : 50 < 52.
Proof.
  apply (celsius_to_fahrenheit_increasing 10 11 50 52); try lia;
    vm_compute; reflexivity.
Defined.

(** [knots_to_mph] is strictly increasing on the speeds of a wind token,
    and the value in miles per hour is never below the value in knots: a
    gust above the wind speed in knots stays above it in miles per hour. *)
Theorem knots_to_mph_increasing (k k' m m' : Z) :
  0 <= k -> k < k' -> k' <= 999 ->
  knots_to_mph k = Ok m -> knots_to_mph k' = Ok m' ->
  m < m' /\ k <= m.
Proof.
  intros L H U E E'.
  destruct (knots_to_mph_range k ltac:(lia)) as (g & G & N & _).
  destruct (knots_to_mph_range k' ltac:(lia)) as (g' & G' & N' & _).
  assert (g = m) by congruence. assert (g' = m') by congruence. subst g g'.
  unfold nearest_mph in N, N'. lia.
Qed.

Lemma knots_to_mph_increasing_witness : 12 < 17 /\ 10 <= 12.
Proof.
  apply (knots_to_mph_increasing 10 15 12 17); try lia;
    vm_compute; reflexivity.
Defined.

(* ================================================================== *)
(** ** Flight categories *)

Section FlightCategory.

Lemma Qle_bool_down (a q q' : Q) :
  Qle_bool q' a = true -> (q <= q')%Q -> Qle_bool q a = true.
Proof.
  intros H Hq. apply Qle_bool_iff. apply Qle_bool_iff in H.
  now apply Qle_trans with q'.
Qed.

(** The category is the worse of the category of the visibility and the
    category of the ceiling. *)
Lemma flight_category_rank (v : Q) (c : Z) :
  category_rank (determine_flight_category v c)
  = Z.min (visibility_rank v) (ceiling_rank c).
Proof.
  unfold determine_flight_category, visibility_rank, ceiling_rank.
  destruct (Qle_bool 1 v), (Qle_bool 3 v), (Qle_bool v 5),
    (c <? 500), (c <? 1000), (c <=? 3000); reflexivity.
Qed.

Lemma visibility_rank_monotone (v v' : Q) :
  (v <= v')%Q -> visibility_rank v <= visibility_rank v'.
Proof.
  intros Hv. unfold visibility_rank.
  destruct (Qle_bool 1 v) eqn:V1;
    [rewrite (Qle_bool_below 1 v v' V1 Hv)|];
  (destruct (Qle_bool 3 v) eqn:V3;
    [rewrite (Qle_bool_below 3 v v' V3 Hv)|]);
  (destruct (Qle_bool v' 5) eqn:V5;
    [rewrite (Qle_bool_down 5 v v' V5 Hv)|]);
  repeat match goal with
         | |- context [Qle_bool ?a ?b] => destruct (Qle_bool a b)
         end;
  cbn; lia.
Qed.

Lemma ceiling_rank_monotone (c c' : Z) :
  c <= c' -> ceiling_rank c <= ceiling_rank c'.
Proof.
  intros Hc. unfold ceiling_rank.
  destruct (Z.ltb_spec c 500), (Z.ltb_spec c' 500),
    (Z.ltb_spec c 1000), (Z.ltb_spec c' 1000),
    (Z.leb_spec c 3000), (Z.leb_spec c' 3000); lia.
Qed.

Lemma visibility_rank_range (v : Q) : 0 <= visibility_rank v <= 3.
Proof.
  unfold visibility_rank.
  destruct (Qle_bool 1 v), (Qle_bool 3 v), (Qle_bool v 5); cbn; lia.
Qed.

Lemma ceiling_rank_range (c : Z) : 0 <= ceiling_rank c <= 3.
Proof.
  unfold ceiling_rank.
  destruct (c <? 500), (c <? 1000), (c <=? 3000); lia.
Qed.

Lemma visibility_rank_best (v : Q) : visibility_rank v = 3 <-> (5 < v)%Q.
Proof.
  unfold visibility_rank. split.
  - destruct (Qle_bool 1 v), (Qle_bool 3 v), (Qle_bool v 5) eqn:V5; cbn;
      intros E; try discriminate E.
    apply Qnot_le_lt. intros K. apply Qle_bool_iff in K. congruence.
  - intros H.
    rewrite (Qle_bool_below 1 5 v eq_refl (Qlt_le_weak _ _ H)).
    rewrite (Qle_bool_below 3 5 v eq_refl (Qlt_le_weak _ _ H)).
    now rewrite (Qle_bool_above v 5 H).
Qed.

Lemma ceiling_rank_best (c : Z) : ceiling_rank c = 3 <-> 3000 < c.
Proof.
  unfold ceiling_rank.
  destruct (Z.ltb_spec c 500), (Z.ltb_spec c 1000), (Z.leb_spec c 3000); lia.
Qed.

End FlightCategory.

(** [determine_flight_category] is monotone: a better visibility and a
    higher ceiling never give a worse category. *)
Theorem flight_category_monotone (v v' : Q) (c c' : Z) :
  (v <= v')%Q -> c <= c' ->
  category_rank (determine_flight_category v c)
  <= category_rank (determine_flight_category v' c').
Proof.
  intros Hv Hc. rewrite !flight_category_rank.
  pose proof (visibility_rank_monotone v v' Hv).
  pose proof (ceiling_rank_monotone c c' Hc). lia.
Qed.

Lemma flight_category_monotone_witness :
  category_rank (determine_flight_category 2 800)
  <= category_rank (determine_flight_category 6 3500).
Proof.
  apply (flight_category_monotone 2 6 800 3500); [|lia].
  unfold Qle. cbn. lia.
Defined.

(** [determine_flight_category] returns one of its four categories, and
    the best one, VFR, exactly when the visibility is above 5 miles and
    the ceiling above 3000 feet: one of the two alone is not enough. *)
Theorem flight_category_vfr_iff (v : Q) (c : Z) :
  0 <= category_rank (determine_flight_category v c) <= 3
  /\ (category_rank (determine_flight_category v c) = 3
      <-> (5 < v)%Q /\ 3000 < c).
Proof.
  rewrite flight_category_rank.
  pose proof (visibility_rank_range v) as Rv.
  pose proof (ceiling_rank_range c) as Rc.
  pose proof (visibility_rank_best v) as Bv.
  pose proof (ceiling_rank_best c) as Bc.
  split; [lia|]. rewrite <- Bv, <- Bc. lia.
Qed.

(* ================================================================== *)
(** ** Wind descriptions *)

(** Symbolic evaluation of a parser on a token whose digits are known
    only to be digits. *)
Ltac eval_token :=
  repeat (cbn [fold_right run append Nat.pred String.length Nat.sub Py.take
               group int_group Nat.eqb Py.int Py.int_digits bind
               Py.is_empty String.eqb];
          repeat match goal with
                 | H : Py.is_digit ?c = true |- context [Py.is_digit ?c] =>
                     rewrite H
                 | H : Py.is_digit ?c = true |- context [Ascii.eqb ?x ?c] =>
                     rewrite (digit_is_not c x eq_refl H)
                 | |- context [Py.is_digit ?x] =>
                     tryif is_var x then fail else
                       (let v := eval vm_compute in (Py.is_digit x) in
                        change (Py.is_digit x) with v)
                 | |- context [Ascii.eqb ?x ?y] =>
                     tryif is_var y then fail else
                       (let v := eval vm_compute in (Ascii.eqb x y) in
                        change (Ascii.eqb x y) with v)
                 end).

Ltac digits_of H :=
  cbn [all_digits] in H;
  repeat match type of H with
         | (_ && _) = true =>
             let H1 := fresh "D" in
             apply andb_true_iff in H; destruct H as [H1 H]
         end.

Section WindTexts.

(** The value of a speed or gust field, from its digits. *)
Lemma knots_field_value (s : string) :
  knots_field s ->
  exists c1 c2 r n,
    s = String c1 (String c2 r)
    /\ Py.is_digit c1 = true /\ Py.is_digit c2 = true
    /\ (r = "" \/ exists c3, r = String c3 "" /\ Py.is_digit c3 = true)
    /\ Py.int_digits 0 s = Ok n /\ Py.int s = Ok n /\ 0 <= n <= 999.
Proof.
  intros H. destruct (knots_field_int s H) as (n & Hn & Rn).
  destruct (knots_field_shape s H) as (c1 & c2 & r & -> & D1 & D2 & Hr).
  exists c1, c2, r, n. repeat split; auto; try lia.
Qed.

Lemma parse_wind_calm (dir speed : string) (gust : option string) :
  all_digits dir = true -> String.length dir = 3%nat ->
  knots_field speed ->
  (forall g, gust = Some g -> knots_field g) ->
  Py.int speed = Ok 0 ->
  parse_wind (fixed_wind_token dir speed gust) = Ok "Calm winds".
Proof.
  intros Dd Ld Hs Hg Hk.
  destruct dir as [|a1 [|a2 [|a3 [|a4 dir]]]]; try discriminate Ld.
  digits_of Dd.
  assert (G : gust = None
              \/ exists g n, gust = Some g /\ knots_field g
                   /\ Py.int g = Ok n).
  { destruct gust as [g|]; [right | now left].
    pose proof (Hg g eq_refl) as Kg.
    destruct (knots_field_int g Kg) as (n & Hn & Rn).
    exists g, n. auto. }
  clear Hg.
  destruct (knots_field_shape speed Hs)
    as (s1 & s2 & r & -> & S1 & S2 & [-> | (s3 & -> & S3)]);
  (destruct G as [-> | (g & n & -> & Kg & Hn)];
   [| destruct (knots_field_shape g Kg)
        as (g1 & g2 & r & -> & G1 & G2 & [-> | (g3 & -> & G3)])]);
  unfold parse_wind, fixed_wind_token, re_match, re_wind_vrb, re_wind_std,
    Re.seq, times, range, opt, lit;
  unfold Py.int in Hk; try unfold Py.int in Hn;
  cbn [Py.int_digits] in Hk; try cbn [Py.int_digits] in Hn;
  rewrite ?S1, ?S2, ?S3 in Hk;
  try rewrite ?G1, ?G2, ?G3 in Hn;
  apply Ok_inj in Hk; try apply Ok_inj in Hn;
  eval_token; rewrite Hk, ?Hn; reflexivity.
Qed.


Lemma parse_wind_text (dir speed : string) (gust : option string)
    (d k : Z) :
  all_digits dir = true -> String.length dir = 3%nat ->
  knots_field speed ->
  (forall g, gust = Some g -> knots_field g) ->
  Py.int dir = Ok d -> Py.int speed = Ok k -> k <> 0 ->
  exists m,
    knots_to_mph k = Ok m /\ nearest_mph k m
    /\ let steady :=
         "Wind from the " ++ degrees_to_direction (inject_Z d) ++ " at "
         ++ Py.str m ++ " mph" in
       match gust with
       | None => parse_wind (fixed_wind_token dir speed gust) = Ok steady
       | Some g =>
           exists n, Py.int g = Ok n
             /\ (n = 0 ->
                 parse_wind (fixed_wind_token dir speed gust) = Ok steady)
             /\ (n <> 0 ->
                 exists mg, knots_to_mph n = Ok mg /\ nearest_mph n mg
                   /\ parse_wind (fixed_wind_token dir speed gust)
                      = Ok (steady ++ ", gusting to " ++ Py.str mg ++ " mph"))
       end.
Proof.
  intros Dd Ld Hs Hg Hd Hk Hk0.
  destruct dir as [|a1 [|a2 [|a3 [|a4 dir]]]]; try discriminate Ld.
  digits_of Dd.
  destruct (knots_field_int speed Hs) as (k' & Hk' & Rk).
  assert (k' = k) by congruence. subst k'. clear Hk'.
  destruct (knots_to_mph_range k Rk) as (m & Hm & Nm & _).
  exists m. split; [exact Hm|]. split; [exact Nm|].
  assert (G : gust = None
              \/ exists g n mg, gust = Some g /\ knots_field g
                   /\ Py.int g = Ok n
                   /\ knots_to_mph n = Ok mg /\ nearest_mph n mg).
  { destruct gust as [g|]; [right | now left].
    pose proof (Hg g eq_refl) as Kg.
    destruct (knots_field_int g Kg) as (n & Hn & Rn).
    destruct (knots_to_mph_range n Rn) as (mg & Hmg & Nmg & _).
    exists g, n, mg. auto. }
  clear Hg.
  destruct (knots_field_shape speed Hs)
    as (s1 & s2 & r & -> & S1 & S2 & [-> | (s3 & -> & S3)]);
  (destruct G as [-> | (g & n & mg & -> & Kg & Hn & Hmg & Nmg)];
   [| exists n; split; [exact Hn|];
      destruct (knots_field_shape g Kg)
        as (g1 & g2 & r & -> & G1 & G2 & [-> | (g3 & -> & G3)])]);
  cbv zeta;
  unfold parse_wind, fixed_wind_token, re_match, re_wind_vrb, re_wind_std,
    Re.seq, times, range, opt, lit;
  unfold Py.int in Hd, Hk; try unfold Py.int in Hn;
  cbn [Py.int_digits] in Hd, Hk; try cbn [Py.int_digits] in Hn;
  rewrite ?D, ?D0, ?D1 in Hd; rewrite ?S1, ?S2, ?S3 in Hk;
  try rewrite ?G1, ?G2, ?G3 in Hn;
  apply Ok_inj in Hd, Hk; try apply Ok_inj in Hn;
  eval_token; rewrite Hd, Hk, ?Hn;
  (destruct (Z.eqb_spec k 0) as [|_]; [contradiction|]);
  rewrite Hm; cbn [bind];
  try (split; [intros ->; reflexivity|]; intros N0; exists mg;
       split; [exact Hmg|]; split; [exact Nmg|];
       destruct (Z.eqb_spec n 0) as [|_]; [contradiction|];
       rewrite Hmg; cbn [bind]);
  reflexivity.
Qed.

Lemma parse_wind_variable (speed : string) (k : Z) :
  knots_field speed -> Py.int speed = Ok k ->
  exists m,
    knots_to_mph k = Ok m /\ nearest_mph k m
    /\ parse_wind (variable_wind_token speed None)
       = Ok (if k =? 0 then "Calm winds"
             else "Variable wind at " ++ Py.str m ++ " mph").
Proof.
  intros Hs Hk.
  destruct (knots_field_int speed Hs) as (k' & Hk' & Rk).
  assert (k' = k) by congruence. subst k'. clear Hk'.
  destruct (knots_to_mph_range k Rk) as (m & Hm & Nm & _).
  exists m. split; [exact Hm|]. split; [exact Nm|].
  destruct (knots_field_shape speed Hs)
    as (s1 & s2 & r & -> & S1 & S2 & [-> | (s3 & -> & S3)]);
  unfold parse_wind, variable_wind_token, re_match, re_wind_vrb, re_wind_std,
    Re.seq, times, range, opt, lit;
  unfold Py.int in Hk; cbn [Py.int_digits] in Hk;
  rewrite ?S1, ?S2, ?S3 in Hk; apply Ok_inj in Hk;
  eval_token; rewrite Hk, Hm; cbn [bind];
  destruct (k =? 0); reflexivity.
Qed.

Lemma parse_wind_variable_gust (speed gust : string) :
  knots_field speed -> knots_field gust ->
  matches re_wind_guard (variable_wind_token speed (Some gust)) = true
  /\ parse_wind (variable_wind_token speed (Some gust))
     = Ok ("Wind: " ++ variable_wind_token speed (Some gust)).
Proof.
  intros Hs Hg.
  destruct (knots_field_shape speed Hs)
    as (s1 & s2 & r & -> & S1 & S2 & [-> | (s3 & -> & S3)]);
  destruct (knots_field_shape gust Hg)
    as (g1 & g2 & r & -> & G1 & G2 & [-> | (g3 & -> & G3)]);
  (split;
   [ unfold matches, variable_wind_token, re_match, re_wind_guard,
       Re.seq, times, range, opt, lit; eval_token; reflexivity
   | unfold parse_wind, variable_wind_token, re_match, re_wind_vrb,
       re_wind_std, Re.seq, times, range, opt, lit;
     eval_token; reflexivity ]).
Qed.

End WindTexts.

(** A wind token whose speed field is zero is described as "Calm winds",
    whatever its direction field and its gust field are. *)
Theorem zero_speed_is_calm (dir speed : string) (gust : option string) :
  all_digits dir = true -> String.length dir = 3%nat ->
  knots_field speed ->
  (forall g, gust = Some g -> knots_field g) ->
  Py.int speed = Ok 0 ->
  parse_wind (fixed_wind_token dir speed gust) = Ok "Calm winds"
  /\ parse_wind (variable_wind_token speed None) = Ok "Calm winds".
Proof.
  intros Dd Ld Hs Hg Hk. split.
  - now apply parse_wind_calm.
  - destruct (parse_wind_variable speed 0 Hs Hk) as (m & _ & _ & E).
    exact E.
Qed.

Lemma zero_speed_is_calm_witness :
  parse_wind (fixed_wind_token "360" "00" (Some "25")) = Ok "Calm winds"
  /\ parse_wind (variable_wind_token "00" None) = Ok "Calm winds".
Proof.
  apply (zero_speed_is_calm "360" "00" (Some "25")).
  - reflexivity.
  - reflexivity.
  - split; [reflexivity | left; reflexivity].
  - intros g [= <-]. split; [reflexivity | left; reflexivity].
  - reflexivity.
Defined.

(** The description of a fixed-direction wind token with a speed that is
    not zero: the direction of [degrees_to_direction], the speed in miles
    per hour, the integer nearest to the knots times 1.15078, and, when
    there is a gust field that is not zero, the gust converted the same
    way; a gust field of zero is left out. *)
Theorem fixed_wind_text (dir speed : string) (gust : option string)
    (d k : Z) :
  all_digits dir = true -> String.length dir = 3%nat ->
  knots_field speed ->
  (forall g, gust = Some g -> knots_field g) ->
  Py.int dir = Ok d -> Py.int speed = Ok k -> k <> 0 ->
  exists m,
    nearest_mph k m
    /\ let steady :=
         "Wind from the " ++ degrees_to_direction (inject_Z d) ++ " at "
         ++ Py.str m ++ " mph" in
       match gust with
       | None => parse_wind (fixed_wind_token dir speed gust) = Ok steady
       | Some g =>
           exists n, Py.int g = Ok n
             /\ (n = 0 ->
                 parse_wind (fixed_wind_token dir speed gust) = Ok steady)
             /\ (n <> 0 ->
                 exists mg, nearest_mph n mg
                   /\ parse_wind (fixed_wind_token dir speed gust)
                      = Ok (steady ++ ", gusting to " ++ Py.str mg ++ " mph"))
       end.
Proof.
  intros Dd Ld Hs Hg Hd Hk Hk0.
  destruct (parse_wind_text dir speed gust d k Dd Ld Hs Hg Hd Hk Hk0)
    as (m & _ & Nm & T).
  exists m. split; [exact Nm|]. cbv zeta in *.
  destruct gust as [g|]; [|exact T].
  destruct T as (n & Hn & T0 & T1). exists n. split; [exact Hn|].
  split; [exact T0|]. intros N0.
  destruct (T1 N0) as (mg & _ & Nmg & E). now exists mg.
Qed.

Lemma fixed_wind_text_witness :
  exists m,
    nearest_mph 25 m
    /\ exists n, Py.int "40" = Ok n
         /\ (n = 0 ->
             parse_wind (fixed_wind_token "240" "25" (Some "40"))
             = Ok ("Wind from the " ++ degrees_to_direction (inject_Z 240)
                   ++ " at " ++ Py.str m ++ " mph"))
         /\ (n <> 0 ->
             exists mg, nearest_mph n mg
               /\ parse_wind (fixed_wind_token "240" "25" (Some "40"))
                  = Ok (("Wind from the "
                         ++ degrees_to_direction (inject_Z 240)
                         ++ " at " ++ Py.str m ++ " mph")
                        ++ ", gusting to " ++ Py.str mg ++ " mph")).
Proof.
  apply (fixed_wind_text "240" "25" (Some "40") 240 25).
  - reflexivity.
  - reflexivity.
  - split; [reflexivity | left; reflexivity].
  - intros g [= <-]. split; [reflexivity | left; reflexivity].
  - reflexivity.
  - reflexivity.
  - lia.
Defined.

(** A variable wind token, [VRB] and a speed that is not zero, is
    described as a variable wind at the speed in miles per hour, the
    integer nearest to the knots times 1.15078. *)
Theorem variable_wind_text (speed : string) (k : Z) :
  knots_field speed -> Py.int speed = Ok k -> k <> 0 ->
  exists m,
    nearest_mph k m
    /\ parse_wind (variable_wind_token speed None)
       = Ok ("Variable wind at " ++ Py.str m ++ " mph").
Proof.
  intros Hs Hk Hk0.
  destruct (parse_wind_variable speed k Hs Hk) as (m & _ & Nm & E).
  exists m. split; [exact Nm|]. rewrite E.
  now destruct (Z.eqb_spec k 0).
Qed.

Lemma variable_wind_text_witness :
  exists m,
    nearest_mph 5 m
    /\ parse_wind (variable_wind_token "05" None)
       = Ok ("Variable wind at " ++ Py.str m ++ " mph").
Proof.
  apply (variable_wind_text "05" 5).
  - split; [reflexivity | left; reflexivity].
  - reflexivity.
  - lia.
Defined.

(** A variable wind token with a gust field passes the wind pattern of
    [decode_metar], but neither pattern of [parse_wind] provides for it:
    the wind is described by the token itself after "Wind: ", without a
    speed in miles per hour. *)
Theorem variable_wind_gust_verbatim (speed gust : string) :
  knots_field speed -> knots_field gust ->
  is_wind_token (variable_wind_token speed (Some gust)) = true
  /\ parse_wind (variable_wind_token speed (Some gust))
     = Ok ("Wind: " ++ variable_wind_token speed (Some gust)).
Proof. exact (parse_wind_variable_gust speed gust). Qed.

Lemma variable_wind_gust_verbatim_witness :
  is_wind_token (variable_wind_token "05" (Some "15")) = true
  /\ parse_wind (variable_wind_token "05" (Some "15"))
     = Ok ("Wind: " ++ variable_wind_token "05" (Some "15")).
Proof.
  apply (variable_wind_gust_verbatim "05" "15");
    (split; [reflexivity | left; reflexivity]).
Defined.

(* ================================================================== *)
(** ** Altimeter and temperature groups *)

Section Altimeter.

Lemma inches_checked_all :
  forallb inches_checked (upto (Z.to_nat 10000)) = true.
Proof. vm_compute. reflexivity. Qed.

Lemma inches_exact (v : Z) :
  0 <= v <= 9999 ->
  exists x, F64.int_truediv v 100 = Ok x
    /\ F64.format_fixed 2 (F64.Fin x) = hundredths_text v.
Proof.
  intros H. pose proof inches_checked_all as A.
  rewrite forallb_forall in A.
  specialize (A v (upto_in (Z.to_nat 10000) v ltac:(lia))).
  unfold inches_checked in A.
  destruct (F64.int_truediv v 100) as [x|e]; [|discriminate A].
  exists x. split; [reflexivity|]. now apply String.eqb_eq.
Qed.

(** The value of a field of four digits. *)
Lemma four_digits (ds : string) (v : Z) :
  all_digits ds = true -> String.length ds = 4%nat -> Py.int ds = Ok v ->
  exists c1 c2 c3 c4,
    ds = String c1 (String c2 (String c3 (String c4 "")))
    /\ Py.is_digit c1 = true /\ Py.is_digit c2 = true
    /\ Py.is_digit c3 = true /\ Py.is_digit c4 = true
    /\ 10 * (10 * (10 * (10 * 0 + Py.digit_value c1) + Py.digit_value c2)
             + Py.digit_value c3) + Py.digit_value c4 = v
    /\ 0 <= v <= 9999.
Proof.
  intros D L Hv.
  destruct ds as [|c1 [|c2 [|c3 [|c4 [|c5 ds]]]]]; try discriminate L.
  digits_of D. exists c1, c2, c3, c4.
  unfold Py.int in Hv. cbn [Py.int_digits] in Hv.
  rewrite D0, D1, D2, D3 in Hv. apply Ok_inj in Hv.
  pose proof (digit_value_range _ D0). pose proof (digit_value_range _ D1).
  pose proof (digit_value_range _ D2). pose proof (digit_value_range _ D3).
  repeat split; auto; lia.
Qed.

Lemma parse_altimeter_A (ds rest : string) (v : Z) :
  all_digits ds = true -> String.length ds = 4%nat -> Py.int ds = Ok v ->
  parse_altimeter ("A" ++ ds ++ rest)
  = Ok (hundredths_text v ++ " inches of mercury").
Proof.
  intros D L Hv.
  destruct (four_digits ds v D L Hv)
    as (c1 & c2 & c3 & c4 & -> & D1 & D2 & D3 & D4 & E & R).
  destruct (inches_exact v R) as (x & Hx & Fx).
  unfold parse_altimeter, re_match, re_alt_A, Re.seq, times, lit.
  eval_token. rewrite E, Hx. cbn [bind]. now rewrite Fx.
Qed.

Lemma parse_altimeter_Q (ds rest : string) (v : Z) :
  all_digits ds = true -> String.length ds = 4%nat -> Py.int ds = Ok v ->
  parse_altimeter ("Q" ++ ds ++ rest) = Ok (Py.str v ++ " hectopascals").
Proof.
  intros D L Hv.
  destruct (four_digits ds v D L Hv)
    as (c1 & c2 & c3 & c4 & -> & D1 & D2 & D3 & D4 & E & R).
  unfold parse_altimeter, re_match, re_alt_A, re_alt_Q, Re.seq, times, lit.
  eval_token. now rewrite E.
Qed.

Lemma parse_altimeter_other (s : string) :
  Py.startswith "A" s = false -> Py.startswith "Q" s = false ->
  parse_altimeter s = Ok s.
Proof.
  destruct s as [|c s]; [reflexivity|].
  cbn [Py.startswith]. rewrite !andb_true_r. intros HA HQ.
  unfold parse_altimeter, re_match, re_alt_A, re_alt_Q, Re.seq, times, lit.
  cbn [fold_right run Py.is_empty]. now rewrite HA, HQ.
Qed.

End Altimeter.

Section Temperature.

(** The value of a field of two digits. *)
Lemma two_digits (ds : string) (v : Z) :
  all_digits ds = true -> String.length ds = 2%nat -> Py.int ds = Ok v ->
  exists c1 c2,
    ds = String c1 (String c2 "")
    /\ Py.is_digit c1 = true /\ Py.is_digit c2 = true
    /\ 10 * (10 * 0 + Py.digit_value c1) + Py.digit_value c2 = v
    /\ 0 <= v <= 99.
Proof.
  intros D L Hv.
  destruct ds as [|c1 [|c2 [|c3 ds]]]; try discriminate L.
  digits_of D. exists c1, c2.
  unfold Py.int in Hv. cbn [Py.int_digits] in Hv.
  rewrite D0, D1 in Hv. apply Ok_inj in Hv.
  pose proof (digit_value_range _ D0). pose proof (digit_value_range _ D1).
  repeat split; auto; lia.
Qed.

Lemma parse_temp_dewpoint_token (tn dn : bool) (t dw : string) (a b : Z) :
  all_digits t = true -> String.length t = 2%nat -> Py.int t = Ok a ->
  all_digits dw = true -> String.length dw = 2%nat -> Py.int dw = Ok b ->
  let temp_c := if tn then - a else a in
  let dew_c := if dn then - b else b in
  exists temp_f dew_f,
    nearest_fahrenheit temp_c temp_f /\ nearest_fahrenheit dew_c dew_f
    /\ parse_temp_dewpoint (temp_token tn t dn dw)
       = Ok (temperature_text temp_f temp_c, temperature_text dew_f dew_c)
    /\ is_temp_token (temp_token tn t dn dw) = true.
Proof.
  intros Dt Lt Ht Dd Ld Hd.
  destruct (two_digits t a Dt Lt Ht) as (t1 & t2 & -> & T1 & T2 & Ea & Ra).
  destruct (two_digits dw b Dd Ld Hd) as (d1 & d2 & -> & D1 & D2 & Eb & Rb).
  cbv zeta.
  destruct (celsius_to_fahrenheit_range (if tn then - a else a))
    as (tf & Htf & Ntf); [destruct tn; lia|].
  destruct (celsius_to_fahrenheit_range (if dn then - b else b))
    as (df & Hdf & Ndf); [destruct dn; lia|].
  exists tf, df. split; [exact Ntf|]. split; [exact Ndf|].
  destruct tn, dn;
    (split;
     [ unfold parse_temp_dewpoint, temp_token, re_match, re_temp, Re.seq,
         times, opt, lit, is_M;
       eval_token; rewrite Ea, Eb, Htf; cbn [bind]; rewrite Hdf;
       reflexivity
     | unfold is_temp_token, matches, temp_token, re_match, re_temp_guard,
         Re.seq, times, opt, lit;
       eval_token; reflexivity ]).
Qed.

End Temperature.

(** An altimeter group in inches, [A] and four digits, is described by
    the four digits with the decimal point in the middle: the quotient by
    100 in binary64, printed with two decimals, is exact for every value.
    What follows the four digits is not read. *)
Theorem altimeter_inches_exact (ds rest : string) (v : Z) :
  all_digits ds = true -> String.length ds = 4%nat -> Py.int ds = Ok v ->
  parse_altimeter ("A" ++ ds ++ rest)
  = Ok (Py.str (v / 100) ++ "." ++ Py.zfill 2 (Py.str (v mod 100))
        ++ " inches of mercury").
Proof.
  intros D L Hv. rewrite (parse_altimeter_A ds rest v D L Hv).
  unfold hundredths_text. now rewrite !append_assoc.
Qed.

Lemma altimeter_inches_exact_witness :
  parse_altimeter ("A" ++ "3012" ++ "")
  = Ok (Py.str (3012 / 100) ++ "." ++ Py.zfill 2 (Py.str (3012 mod 100))
        ++ " inches of mercury").
Proof.
  apply (altimeter_inches_exact "3012" "" 3012); reflexivity.
Defined.

(** An altimeter group in hectopascals, [Q] and four digits, is described
    by the value of the digits, a leading zero dropped; a text that begins
    with neither [A] nor [Q] is returned as it is. *)
Theorem altimeter_hectopascals (ds rest : string) (v : Z) :
  all_digits ds = true -> String.length ds = 4%nat -> Py.int ds = Ok v ->
  parse_altimeter ("Q" ++ ds ++ rest) = Ok (Py.str v ++ " hectopascals")
  /\ forall s, Py.startswith "A" s = false -> Py.startswith "Q" s = false ->
       parse_altimeter s = Ok s.
Proof.
  intros D L Hv. split.
  - now apply parse_altimeter_Q.
  - exact parse_altimeter_other.
Qed.

Lemma altimeter_hectopascals_witness :
  parse_altimeter ("Q" ++ "0998" ++ "") = Ok (Py.str 998 ++ " hectopascals")
  /\ forall s, Py.startswith "A" s = false -> Py.startswith "Q" s = false ->
       parse_altimeter s = Ok s.
Proof.
  apply (altimeter_hectopascals "0998" "" 998); reflexivity.
Defined.

(** A temperature token, two fields of two digits with [M] in front of a
    negative one, passes the classifier and is parsed without an error:
    each field gives its Celsius value, negated after [M], and the
    Fahrenheit value nearest to it, the temperature and the dewpoint
    independently of each other.  [M00] is 0, not -0. *)
Theorem temp_dewpoint_text (tn dn : bool) (t dw : string) (a b : Z) :
  all_digits t = true -> String.length t = 2%nat -> Py.int t = Ok a ->
  all_digits dw = true -> String.length dw = 2%nat -> Py.int dw = Ok b ->
  exists temp_f dew_f,
    nearest_fahrenheit (if tn then - a else a) temp_f
    /\ nearest_fahrenheit (if dn then - b else b) dew_f
    /\ parse_temp_dewpoint (temp_token tn t dn dw)
       = Ok (temperature_text temp_f (if tn then - a else a),
             temperature_text dew_f (if dn then - b else b))
    /\ is_temp_token (temp_token tn t dn dw) = true.
Proof. exact (parse_temp_dewpoint_token tn dn t dw a b). Qed.

Lemma temp_dewpoint_text_witness :
  exists temp_f dew_f,
    nearest_fahrenheit (- 5) temp_f
    /\ nearest_fahrenheit (- 8) dew_f
    /\ parse_temp_dewpoint (temp_token true "05" true "08")
       = Ok (temperature_text temp_f (- 5), temperature_text dew_f (- 8))
    /\ is_temp_token (temp_token true "05" true "08") = true.
Proof.
  apply (temp_dewpoint_text true true "05" "08" 5 8); reflexivity.
Defined.
